(* ===== verification/_CoqProject ===== *)
-Q . S2P
Prelude.v
Throttle.v
TadoApi.v
DataStore.v
Setup.v
Polling.v
Trace.v
AbstractStore.v
Host.v
