(* ===== verification/Prelude.v ===== *)
(** * A verification development of the Tado integration of Home Assistant

    Source: [src/homeassistant/components/tado/__init__.py] (144 lines).

    ** The program

    The module glues the cloud client [PyTado.interface.Tado] to the
    Home Assistant host.  It has three parts:

    - [setup(hass, config)] (lines 36-53) reads the user name and password
      from the validated configuration ([CONFIG_SCHEMA], lines 23-33),
      builds and authenticates the cloud client, stores a fresh
      [TadoDataStore] under [hass.data["tado_data"]] and asks the host to
      load the ["sensor"] and ["climate"] platforms.  A [RuntimeError] or
      an [HTTPError] while authenticating makes it log an error and return
      [False], with nothing stored or loaded.
    - [TadoDataStore] (lines 56-145) holds the registry of tracked sensors
      ([self.sensors], an insertion-ordered dict data id -> descriptor),
      the cache of their last values ([self.data], data id -> payload or
      [None]) and, through the [Throttle] decorator, the time of the last
      effective refresh.  [add_sensor] registers an entry, [update] queries
      the cloud for every registered entry (a [RuntimeError] is logged and
      caches [None]), [get_data] reads the cache, three read wrappers pass
      through to the client, and three write wrappers call the client and
      then force an unthrottled [update].
    - [homeassistant.util.Throttle] (outside src/, modelled from the spec
      and marked so in the manifest) lets a call through when it is forced,
      when it is the first, or when more than [MIN_TIME_BETWEEN_UPDATES]
      (10 s) passed since the last effective call; otherwise it returns
      [None] without running the method.

    The sensor and climate platforms (outside src/) are the clients of the
    store: they call [add_sensor], [update], [get_data] and the wrappers.

    ** The library

    - [Prelude] (this file): Python values [pyval], exceptions [exn], the
      outcome of a Python computation, the state-and-exception monad [PyM]
      in which state changes survive a raised exception (as in Python), the
      [try]/[except]/[else] combinator, the insertion-ordered dict [pydict]
      with its lemmas, the hint databases [tado] and [tado_rw] and the tactic
      [py_unfold].
    - [Throttle]: the [Throttle] decorator as a combinator on [PyM] over any
      state that has a last-call slot and a clock (a [Section] whose
      [Context] is the lens and its laws); its gating theorems.
    - [TadoApi]: the interface the code expects of the cloud client, a
      [Class TadoClient] over an abstract cloud state, the environment
      [Env] (cloud, clock, trace of client calls, log records), the class
      [HasEnv] of states that contain an environment, and the monadic
      wrappers of the client calls and of [_LOGGER]; a mock cloud
      [MockCloud] instantiates the interface for the concrete witnesses.
    - [DataStore]: [TadoDataStore] with every method of the class, the
      invariant that the cache and the registry have the same keys, the
      functional behaviour of [update] entry by entry (errors included),
      the throttle and forced-refresh behaviour, and the refinement of
      [update] by the pure loop [refresh].
    - [Setup]: [CONFIG_SCHEMA] and [setup], with the success and failure
      behaviour of setup and the shape of a validated configuration.
    - [Polling]: [update] over time: forced against unforced calls, the
      end of the throttle window, a write followed by a poll.
    - [Trace]: the exact client-call trace and log of one turn of the
      loop ([entry_calls], [entry_log], combined by [entry_trace]) and of
      the loop ([refresh_trace]); the judgement [traced proj m tr]
      composes along [bind] and [py_try] like [pure_as], for either trace
      of the environment.
    - [AbstractStore]: the store of the spec (section 4.1) as an abstract
      state [AbsStore] (registry map, cache map, last refresh) with its
      transitions [abs_step] (add, refresh, nothing), and the abstraction
      [abs_of] of a concrete store.
    - [Host]: the composition.  [with_store] runs a store method on the
      object stored in [hass.data["tado_data"]] (mutated in place, so the
      result replaces it under the same key; [KeyError] when absent), and
      [hass_step] is one step of the host: [setup] on a configuration
      [CONFIG_SCHEMA] accepted while the integration is not set up, a call
      of a loaded platform through [with_store], a clock tick, a cloud
      change.

    ** What is proved

    - Refinement: [DataStore.update_spec] says [update] is, when the
      throttle lets it through, the pure loop [refresh] over the registry
      against the current cloud (built from [entry_value], the meaning of
      one turn of the loop with its [try]/[except]), and a no-op otherwise.
      The proof composes the judgement [pure_as] (a statement that only
      reads the cloud and appends to the trace and log) over the
      statements of the loop.
    - Throttle: [update_twice_one_batch] (a second unforced call within
      10 s calls nothing and changes nothing) and [update_polls_spaced]
      (the refreshes of a polling sequence are more than 10 s apart, from
      the generic [Throttle.poll_after_last]).
    - Writes: [set_zone_overlay_spec], [reset_zone_overlay_spec],
      [set_zone_off_spec]: the client call with its exact arguments, then a
      forced refresh from the new cloud; on a client error no refresh.
    - Invariant: [reachable_world_inv], by rule induction over the host
      step relation [host_step] (platform calls, clock ticks, cloud
      changes): unique registry keys, cache keys = registry keys, last
      refresh time not in the future.
    - Errors: [update_isolates_failures] (with well-formed descriptors and
      a client failing only with [RuntimeError], every entry is refreshed,
      failures cache [None]); [update_failure_clears_cache] (the previous
      value is lost, against the spec's data model);
      [update_empty_device_list_aborts] ([IndexError] escapes and aborts
      the refresh); [get_data_unregistered]; [add_sensor_get_data].
    - Setup: [setup_spec] (every answer of the client),
      [config_schema_credentials] (validated configurations make the
      lookups of [setup] succeed with strings) and
      [config_schema_rejects_extra_tado_key] (any extra key in the [tado]
      section makes validation raise [Invalid]).

    - Traces ([Trace]): [update_trace] (the exact requests and log
      records of [update]), [update_calls_bound] (at most two requests
      per registered entry), [update_zone_failure_log] (the error record
      passes the id twice, src line 91), [update_missing_name_raises]
      (a descriptor without a name raises [KeyError] from the debug log,
      src line 77) and [set_zone_overlay_calls].
    - Over time ([Polling]): [update_forced_equiv_due] (forcing a due call
      changes nothing).
    - Refinement of the spec ([AbstractStore]): [store_op_refines] (every
      call of a platform is one abstract transition, when the descriptors
      are well formed and the cloud fails only with [RuntimeError] and
      reports devices).  The conditions are needed: without
      them the loop raises ([update_empty_device_list_aborts],
      [update_missing_name_raises]).
    - Boundaries and ordering ([Polling], [DataStore]):
      [update_throttle_boundary] (the window is closed at exactly 10 s),
      [write_then_poll_throttled] (a poll within 10 s of a successful write
      sends nothing), [add_sensor_registry] (a
      re-registered id keeps its place and reads [None]).
    - Composition ([Host]): [reachable_hass_inv] (by rule induction over
      [hass_step]: the stored store keeps [world_inv], the platforms are
      loaded exactly when the store is there, so a loaded platform never
      meets a [KeyError]) and [setup_register_poll_get]
      (setup, registration and a poll serve the cloud's zone state).
    - Configuration: [config_schema_tado_shape] (the validated [tado]
      section holds exactly the two credentials, as strings).

    Every theorem with hypotheses has a witness on the mock cloud
    ([DataStore.Witnesses], [Setup.SetupWitnesses],
    [Polling.PollingWitnesses], [Trace.TraceWitnesses],
    [AbstractStore.AbstractWitnesses],
    [Host.HostWitnesses]).

    ** Bounds

    There is no fuel: the [for] loop of line 69 runs over a snapshot list
    of the registry and is a structural recursion over it, so it
    terminates by construction.  [MIN_TIME_BETWEEN_UPDATES] is
    10 000 000 us, the [timedelta(seconds=10)] of line 19.

    ** Modelling choices

    - Time is a [Z] count of microseconds read from [Env.now]; the clock
      moves only between calls of the program (a call runs in no time), so
      the two [utcnow()] readings of [Throttle] coincide.  The real
      decorator stamps [utcnow()] after the network calls, later than the
      start of the call; the theorems are stated so that this does not
      matter (a later stamp only widens the window of [update_polls_spaced]
      and [update_twice_one_batch]); no theorem claims that polls spaced
      just over 10 s apart are all served, which the real clock breaks.
    - The lock of [Throttle] is not modelled: the program is single-threaded.
    - A sensor descriptor is a Python dict with string keys; the platforms
      always pass dict literals.
    - Log records are kept in call order, before level filtering, so the
      theorems can say that a failure is logged.
    - Every call of the client is recorded in the trace [Env.calls]; the
      throttle theorems say that a throttled [update] records none.

    ** Not modelled

    The host framework ([hass], [load_platform]) is modelled only as far as
    [setup] touches it (the [hass.data] slot and the list of loaded
    platforms, and the order of setup and platform calls in [hass_step]:
    the host calls [setup] once, and a failed setup may be retried);
    voluptuous and [cv.string] are modelled only as the
    validation [CONFIG_SCHEMA] performs; the HTTP protocol of the cloud is
    behind the [TadoClient] interface.  The sensor and climate platforms
    (outside src/) appear only through the operations [store_op] they call.
    The effective level of [_LOGGER] (line 14) is the host's logging
    configuration, outside the module: the log keeps every record the
    module asks for, before filtering.

    The platforms reach the store through [hass.data] at each call; the
    real entities keep the reference they read when their platform was
    set up.  Both coincide because [hass_step] runs [setup] at most once
    successfully, so no second store ever replaces the first.

    ** Coverage and what remains

    Every statement of the module is translated; the lines the manifest
    does not map are the imports (lines 1-14, including the creation of
    [_LOGGER], whose effective level belongs to the host), blank lines and
    docstrings.  The parts left abstract are libraries the module only
    calls: the PyTado client (an interface, [TadoClient]), voluptuous
    beyond what [CONFIG_SCHEMA] does with its inputs, and the host's
    scheduler and entity machinery.  Their error messages and the
    coercions of [cv.string] on floats are not modelled. *)

From Stdlib Require Import ZArith.
From stdpp Require Export base strings gmap list.

(** ** Python values *)

#[local] Set Warnings "-register-all".
Inductive pyval : Type :=
| PNone
| PBool (b : bool)
| PInt (z : Z)
| PStr (s : string)
| PList (l : list pyval)
| PDict (d : list (string * pyval)).

(** The Python exceptions the module raises, catches or lets through.
    [HTTPError] is [urllib.error.HTTPError]; [Invalid] is voluptuous'
    [Invalid] (and [MultipleInvalid]); [OtherError] stands for any other
    exception class the client library may raise. *)
Inductive exn : Type :=
| RuntimeError
| HTTPError
| KeyError (key : pyval)
| IndexError
| TypeError
| Invalid
| OtherError (name : string).

(** [except RuntimeError:] and [except (RuntimeError, HTTPError):]. *)
Definition is_RuntimeError (e : exn) : bool :=
  match e with RuntimeError => true | _ => false end.

Definition is_RuntimeError_or_HTTPError (e : exn) : bool :=
  match e with RuntimeError | HTTPError => true | _ => false end.

(** ** Outcomes and the monad *)

Inductive outcome (A : Type) : Type :=
| Ok (a : A)
| Raise (e : exn).
Arguments Ok {A} a.
Arguments Raise {A} e.

(** A Python statement over a state [S]: the state it leaves (also when it
    raises) and its outcome. *)
Definition PyM (S A : Type) : Type := S -> S * outcome A.

Section Monad.
Context {S : Type}.

Definition ret {A} (a : A) : PyM S A := fun s => (s, Ok a).

Definition bind {A B} (m : PyM S A) (k : A -> PyM S B) : PyM S B :=
  fun s => match m s with
           | (s', Ok a) => k a s'
           | (s', Raise e) => (s', Raise e)
           end.

Definition raise {A} (e : exn) : PyM S A := fun s => (s, Raise e).

(** [try: body except <matching>: handler else: orelse].  The handler
    runs in the state the body left; an exception raised by [orelse] or
    by the handler is not caught by this [try]. *)
Definition py_try {A B} (body : PyM S A) (matches : exn -> bool)
    (handler : PyM S B) (orelse : A -> PyM S B) : PyM S B :=
  fun s => match body s with
           | (s', Ok a) => orelse a s'
           | (s', Raise e) => if matches e then handler s' else (s', Raise e)
           end.

(** Lift a pure Python expression that may raise. *)
Definition lift {A} (o : outcome A) : PyM S A := fun s => (s, o).

Definition modify (f : S -> S) : PyM S unit := fun s => (f s, Ok tt).
Definition gets {A} (f : S -> A) : PyM S A := fun s => (s, Ok (f s)).

End Monad.

Declare Scope py_scope.
Delimit Scope py_scope with py.
Notation "'let*' x ':=' c1 'in' c2" := (bind c1 (fun x => c2))
  (at level 10, x name, c1 at level 100, c2 at level 200) : py_scope.
Notation "c1 ';;;' c2" := (bind c1 (fun _ => c2))
  (at level 100, right associativity) : py_scope.
Open Scope py_scope.

(** ** Python dicts with string keys, in insertion order *)

Definition pydict (V : Type) : Type := list (string * V).

Section PyDict.
Context {V : Type}.

Fixpoint dict_get (d : pydict V) (k : string) : option V :=
  match d with
  | [] => None
  | (k', v) :: d' => if String.eqb k k' then Some v else dict_get d' k
  end.

(** [d[k] = v]: an existing key keeps its position, a new one is
    appended. *)
Fixpoint dict_set (d : pydict V) (k : string) (v : V) : pydict V :=
  match d with
  | [] => [(k, v)]
  | (k', v') :: d' =>
      if String.eqb k k' then (k', v) :: d' else (k', v') :: dict_set d' k v
  end.

(** [k in d] *)
Definition dict_mem (d : pydict V) (k : string) : bool :=
  match dict_get d k with Some _ => true | None => false end.

(** [d[k]]: [KeyError] when absent. *)
Definition dict_getitem (d : pydict V) (k : string) : outcome V :=
  match dict_get d k with Some v => Ok v | None => Raise (KeyError (PStr k)) end.

Definition dict_keys (d : pydict V) : list string := map fst d.
End PyDict.

(** [l[0]] on a Python value: a list gives its head or [IndexError], a
    string its first character, a dict with string keys [KeyError 0], any
    other value [TypeError]. *)
Definition py_index0 (v : pyval) : outcome pyval :=
  match v with
  | PList (x :: _) => Ok x
  | PList [] => Raise IndexError
  | PStr (String c _) => Ok (PStr (String c EmptyString))
  | PStr EmptyString => Raise IndexError
  | PDict _ => Raise (KeyError (PInt 0))
  | _ => Raise TypeError
  end.

(** [v[k]] for a string key on a Python value (used on configuration
    dicts). *)
Definition py_getitem (v : pyval) (k : string) : outcome pyval :=
  match v with
  | PDict d => dict_getitem d k
  | _ => Raise TypeError
  end.

(** ** Shared lemmas and automation *)

Create HintDb tado discriminated.
Create Rewrite HintDb tado_rw.

Section PyDictFacts.
Context {V : Type}.
Implicit Types (d : pydict V) (k : string) (v : V).

Lemma dict_get_set_eq d k v : dict_get (dict_set d k v) k = Some v.
Proof.
  induction d as [|[k' v'] d IH]; simpl; [by rewrite String.eqb_refl|].
  destruct (String.eqb_spec k k') as [->|]; simpl;
    [by rewrite String.eqb_refl | by rewrite (proj2 (String.eqb_neq k k'))].
Qed.

Lemma dict_get_set_ne d k k' v :
  k <> k' -> dict_get (dict_set d k v) k' = dict_get d k'.
Proof.
  intros Hne. induction d as [|[k0 v0] d IH]; simpl.
  - by rewrite (proj2 (String.eqb_neq k' k)) by congruence.
  - destruct (String.eqb_spec k k0) as [->|]; simpl;
      destruct (String.eqb_spec k' k0); congruence.
Qed.

Lemma dict_get_set d k k' v :
  dict_get (dict_set d k v) k' = if String.eqb k k' then Some v else dict_get d k'.
Proof.
  destruct (String.eqb_spec k k') as [->|];
    [apply dict_get_set_eq | by apply dict_get_set_ne].
Qed.

Lemma dict_get_Some_keys d k :
  k ∈ dict_keys d <-> is_Some (dict_get d k).
Proof.
  induction d as [|[k' v'] d IH]; simpl.
  - split; [by intros ?%not_elem_of_nil | by intros [? ?]].
  - rewrite elem_of_cons, IH.
    destruct (String.eqb_spec k k') as [->|]; naive_solver.
Qed.

Lemma dict_keys_set d k v :
  dict_keys (dict_set d k v) =
    if dict_mem d k then dict_keys d else dict_keys d ++ [k].
Proof.
  unfold dict_mem. induction d as [|[k' v'] d IH]; simpl; [done|].
  destruct (String.eqb_spec k k') as [->|]; simpl; [done|].
  rewrite IH. by destruct (dict_get d k).
Qed.

Lemma dict_keys_set_elem d k v k' :
  k' ∈ dict_keys (dict_set d k v) <-> k' = k \/ k' ∈ dict_keys d.
Proof.
  rewrite !dict_get_Some_keys, dict_get_set.
  destruct (String.eqb_spec k k') as [->|]; naive_solver.
Qed.

Lemma dict_set_NoDup d k v :
  NoDup (dict_keys d) -> NoDup (dict_keys (dict_set d k v)).
Proof.
  intros Hnd. rewrite dict_keys_set. unfold dict_mem.
  destruct (dict_get d k) eqn:E; [done|].
  apply NoDup_app. split_and!; [done| |by apply NoDup_singleton].
  intros x Hx ->%list_elem_of_singleton.
  apply dict_get_Some_keys in Hx. rewrite E in Hx. by destruct Hx.
Qed.

Lemma dict_get_elem d k v : dict_get d k = Some v -> (k, v) ∈ d.
Proof.
  induction d as [|[k' v'] d IH]; simpl; [done|].
  destruct (String.eqb_spec k k') as [->|]; intros Hg.
  - injection Hg as ->. apply elem_of_cons. by left.
  - apply elem_of_cons. right. by apply IH.
Qed.

Lemma dict_elem_get d k v : NoDup (dict_keys d) -> (k, v) ∈ d -> dict_get d k = Some v.
Proof.
  induction d as [|[k' v'] d IH]; simpl; [by intros _ ?%not_elem_of_nil|].
  intros [Hk Hnd]%NoDup_cons [[= -> ->]|Hin]%elem_of_cons; [by rewrite String.eqb_refl|].
  destruct (String.eqb_spec k k') as [->|]; [|by apply IH].
  exfalso. apply Hk. apply list_elem_of_fmap. by exists (k', v).
Qed.
End PyDictFacts.

#[export] Hint Rewrite @dict_get_set_eq : tado_rw.
#[export] Hint Resolve dict_set_NoDup : tado.

Section MonadFacts.
Context {S : Type}.

Lemma fst_bind_ret {A B} (m : PyM S A) (b : B) s : fst ((m ;;; ret b) s) = fst (m s).
Proof. unfold bind, ret. by destruct (m s) as [? []]. Qed.

End MonadFacts.

(** Unfold the monad and compute. *)
Ltac py_unfold :=
  unfold bind, ret, raise, lift, modify, gets, py_try in *; simpl in *.

