(* ===== verification/Throttle.v ===== *)
(** * The [Throttle] decorator of [homeassistant.util]

    [TadoDataStore.update] is wrapped in [@Throttle(MIN_TIME_BETWEEN_UPDATES)]
    (src line 66).  The decorator lives outside src/ and is modelled here from
    the spec: a call goes through when [no_throttle=True] is passed, when the
    method never ran, or when more than [min_time] elapsed since the last
    effective call; it then runs the method and records the time.  Otherwise
    it returns [None] without running it.  An exception of the method leaves
    the recorded time unchanged (the assignment after the call is skipped).

    The combinator is generic in the state: a [Section] whose [Context] is
    the slot holding the time of the last call and the clock [utcnow], with
    the two lens laws as hypotheses. *)

From S2P Require Import Prelude.
From Stdlib Require Import ZArith Lia Sorted.
Local Open Scope Z_scope.

Section Throttle.
Context {S : Type}.
Variable get_last : S -> option Z.
Variable set_last : S -> Z -> S.
Variable utcnow : S -> Z.
Variable min_time : Z.

(** The wrapper of the decorator, in the order of its statements. *)
Definition throttle {A} (no_throttle : bool) (method : PyM S A)
    : PyM S (option A) :=
  let* last := gets get_last in
  let force := no_throttle || negb (bool_decide (is_Some last)) in
  let* now := gets utcnow in
  if force || match last with
              | Some t => Z.ltb min_time (now - t)
              | None => true
              end
  then
    let* result := method in
    let* now' := gets utcnow in
    modify (fun s => set_last s now') ;;;
    ret (Some result)
  else ret None.

(** Whether a call in state [s] runs the method. *)
Definition throttle_due (no_throttle : bool) (s : S) : bool :=
  no_throttle || match get_last s with
                 | Some t => Z.ltb min_time (utcnow s - t)
                 | None => true
                 end.

Hypothesis get_set_last : forall s t, get_last (set_last s t) = Some t.
Hypothesis utcnow_set_last : forall s t, utcnow (set_last s t) = utcnow s.

Lemma throttle_due_spec no_throttle s :
  throttle_due no_throttle s = true <->
  no_throttle = true \/ get_last s = None \/
  exists t, get_last s = Some t /\ min_time < utcnow s - t.
Proof.
  unfold throttle_due. destruct no_throttle; simpl; [naive_solver|].
  destruct (get_last s) as [t|]; [|naive_solver].
  rewrite Z.ltb_lt. split; [eauto|]. intros [?|[?|(t' & [= <-] & ?)]]; done.
Qed.

(** The wrapper runs the method exactly when [throttle_due] holds. *)
Lemma throttle_unfold {A} no_throttle (m : PyM S A) s :
  throttle no_throttle m s =
    if throttle_due no_throttle s then
      match m s with
      | (s', Ok a) => (set_last s' (utcnow s'), Ok (Some a))
      | (s', Raise e) => (s', Raise e)
      end
    else (s, Ok None).
Proof.
  unfold throttle, throttle_due, bind, gets, ret, modify. simpl.
  destruct no_throttle; simpl; [by destruct (m s) as [? []]|].
  destruct (get_last s) as [t|]; simpl; [|by destruct (m s) as [? []]].
  destruct (Z.ltb min_time (utcnow s - t)); [|done].
  by destruct (m s) as [? []].
Qed.

(** A call that is not due does nothing: same state, result [None]. *)
Lemma throttle_skip {A} (m : PyM S A) s t :
  get_last s = Some t -> utcnow s - t <= min_time ->
  throttle false m s = (s, Ok None).
Proof.
  intros Hl Ht. rewrite throttle_unfold. unfold throttle_due.
  rewrite Hl. simpl. by rewrite (proj2 (Z.ltb_ge _ _) Ht).
Qed.

(** A due call that returns records the clock after the method. *)
Lemma throttle_run_ok {A} no_throttle (m : PyM S A) s s' a :
  throttle_due no_throttle s = true -> m s = (s', Ok a) ->
  throttle no_throttle m s = (set_last s' (utcnow s'), Ok (Some a)).
Proof. intros Hd Hm. by rewrite throttle_unfold, Hd, Hm. Qed.

(** A due call whose method raises propagates the exception and keeps
    the time of the previous effective call. *)
Lemma throttle_run_raise {A} no_throttle (m : PyM S A) s s' e :
  throttle_due no_throttle s = true -> m s = (s', Raise e) ->
  throttle no_throttle m s = (s', Raise e).
Proof. intros Hd Hm. by rewrite throttle_unfold, Hd, Hm. Qed.

Lemma throttle_forced {A} (m : PyM S A) s :
  throttle true m s =
    match m s with
    | (s', Ok a) => (set_last s' (utcnow s'), Ok (Some a))
    | (s', Raise e) => (s', Raise e)
    end.
Proof. by rewrite throttle_unfold. Qed.

(** ** Polling: unforced calls at a sequence of instants *)

(** The host moves the clock between calls. *)
Variable set_now : S -> Z -> S.
Hypothesis utcnow_set_now : forall s t, utcnow (set_now s t) = t.
Hypothesis get_last_set_now : forall s t, get_last (set_now s t) = get_last s.

(** The instants at which the method really ran, for unforced calls at
    [times]. *)
Fixpoint poll {A} (m : PyM S A) (times : list Z) (s : S) : S * list Z :=
  match times with
  | [] => (s, [])
  | t :: ts =>
      let (s1, o) := throttle false m (set_now s t) in
      let (s2, ran) := poll m ts s1 in
      (s2, match o with Ok (Some _) => t :: ran | _ => ran end)
  end.

Definition spaced (a b : Z) : Prop := min_time < b - a.

Lemma sorted_le_head (l t : Z) (ts : list Z) :
  Sorted Z.le (t :: ts) -> l <= t -> Forall (Z.le l) ts.
Proof.
  intros Hs Hlt. apply Sorted_extends in Hs; [|intros ???; lia].
  eapply Forall_impl; [exact Hs|]. intros; lia.
Qed.

Section Polling.
Context {A : Type} (m : PyM S A).
(** The method reads the clock but neither moves it nor touches the
    slot of the decorator. *)
Hypothesis m_utcnow : forall s, utcnow (fst (m s)) = utcnow s.
Hypothesis m_last : forall s, get_last (fst (m s)) = get_last s.

Lemma poll_after_last times s :
  Sorted Z.le times ->
  (forall l, get_last s = Some l -> Forall (Z.le l) times) ->
  Sorted spaced (snd (poll m times s)) /\
  (forall l, get_last s = Some l -> Forall (spaced l) (snd (poll m times s))).
Proof.
  revert s. induction times as [|t ts IH]; intros s Hs Hl; simpl; [done|].
  pose proof (Sorted_inv Hs) as [Hts _].
  assert (Hge : forall l, get_last s = Some l -> Forall (Z.le l) ts).
  { intros l Hsl. apply (sorted_le_head l t ts Hs).
    exact (Forall_inv (Hl l Hsl)). }
  rewrite throttle_unfold.
  destruct (throttle_due false (set_now s t)) eqn:Hd.
  - destruct (m (set_now s t)) as [s' [a|e]] eqn:Hm.
    + pose proof (m_utcnow (set_now s t)) as Hc.
      rewrite Hm, utcnow_set_now in Hc. simpl in Hc. rewrite Hc.
      destruct (IH (set_last s' t) Hts) as [Hsort Hsp].
      { intros l Hl'. rewrite get_set_last in Hl'. injection Hl' as <-.
        by apply (sorted_le_head t t ts Hs). }
      destruct (poll m ts (set_last s' t)) as [s2 ran]; simpl in *.
      specialize (Hsp t (get_set_last _ _)).
      split.
      * constructor; [done|]. destruct ran; constructor. by apply Forall_inv in Hsp.
      * intros l Hsl. pose proof (Forall_inv (Hl l Hsl)) as Hlt.
        unfold throttle_due in Hd.
        rewrite get_last_set_now, Hsl, utcnow_set_now in Hd.
        simpl in Hd. apply Z.ltb_lt in Hd.
        constructor; [done|]. eapply Forall_impl; [done|]. unfold spaced; intros; lia.
    + pose proof (m_last (set_now s t)) as Hc.
      rewrite Hm, get_last_set_now in Hc. simpl in Hc.
      destruct (IH s' Hts) as [Hsort Hsp]; [rewrite Hc; apply Hge|].
      destruct (poll m ts s') as [s2 ran]; simpl in *.
      split; [done|]. intros l Hsl. apply Hsp. by rewrite Hc.
  - destruct (IH (set_now s t) Hts) as [Hsort Hsp];
      [rewrite get_last_set_now; apply Hge|].
    destruct (poll m ts (set_now s t)) as [s2 ran]; simpl in *.
    split; [done|]. intros l Hsl. apply Hsp. by rewrite get_last_set_now.
Qed.

End Polling.
End Throttle.

Arguments throttle {S} get_last set_last utcnow min_time {A} no_throttle method _.
