(* ===== verification/TadoApi.v ===== *)
(** * The cloud client and the environment of the integration

    The module calls [PyTado.interface.Tado] (a library outside the
    repository) and [_LOGGER].  This file states what the module expects of
    the client as a class [TadoClient] over an abstract cloud state: each
    read returns a Python value or raises, each write returns the new cloud
    state or raises.  The environment [Env] holds the cloud, the clock read
    by [utcnow()], the trace of the client calls in the order they are made
    and the log records.  [HasEnv] is the interface of a program state that
    contains an environment; the wrappers [call_*] and [log_*] run in [PyM]
    over any such state.  [MockCloud] is a small cloud that implements the
    interface, used by the concrete witnesses. *)

From S2P Require Import Prelude.
From Stdlib Require Import ZArith.

(** The calls the module makes on the client. *)
Inductive api_call : Type :=
| CallTado (username password : pyval)
| CallSetDebugging (debug : bool)
| CallGetState (zone : pyval)
| CallGetDevices
| CallGetZones
| CallGetCapabilities (zone : pyval)
| CallGetMe
| CallResetZoneOverlay (zone : pyval)
| CallSetZoneOverlay (zone overlay_mode temperature duration device_type power mode : pyval).

(** What the module expects of [PyTado.interface.Tado]. *)
Class TadoClient (Cloud : Type) := {
  Tado_login : Cloud -> pyval -> pyval -> outcome unit;
  getState : Cloud -> pyval -> outcome pyval;
  getDevices : Cloud -> outcome pyval;
  getZones : Cloud -> outcome pyval;
  getCapabilities : Cloud -> pyval -> outcome pyval;
  getMe : Cloud -> outcome pyval;
  resetZoneOverlay : Cloud -> pyval -> outcome Cloud;
  setZoneOverlay : Cloud -> pyval -> pyval -> pyval -> pyval -> pyval -> pyval -> pyval ->
                   outcome Cloud
}.

Inductive log_level : Type := DEBUG | ERROR.

Record log_record : Type := LogRecord {
  lr_level : log_level;
  lr_msg : string;
  lr_args : list pyval
}.

Record Env (Cloud : Type) : Type := MkEnv {
  cloud : Cloud;
  now : Z;
  calls : list api_call;
  log : list log_record
}.
Arguments MkEnv {Cloud} cloud now calls log.
Arguments cloud {Cloud} e.
Arguments now {Cloud} e.
Arguments calls {Cloud} e.
Arguments log {Cloud} e.

(** A program state that contains the environment. *)
Class HasEnv (Cloud S : Type) := {
  get_env : S -> Env Cloud;
  set_env : S -> Env Cloud -> S;
  get_set_env : forall s e, get_env (set_env s e) = e
}.

Section Calls.
Context {Cloud S : Type} `{TadoClient Cloud} `{HasEnv Cloud S}.

Definition utcnow (s : S) : Z := now (get_env s).

Definition env_modify (f : Env Cloud -> Env Cloud) : PyM S unit :=
  modify (fun s => set_env s (f (get_env s))).

Definition record_call (c : api_call) : PyM S unit :=
  env_modify (fun e => MkEnv (cloud e) (now e) (calls e ++ [c]) (log e)).

Definition set_cloud (c : Cloud) : PyM S unit :=
  env_modify (fun e => MkEnv c (now e) (calls e) (log e)).

(** A read of the client: recorded, answered from the current cloud. *)
Definition client_read {A} (c : api_call) (f : Cloud -> outcome A) : PyM S A :=
  record_call c ;;;
  let* cl := gets (fun s => cloud (get_env s)) in
  lift (f cl).

(** A write of the client: recorded; on success the cloud changes. *)
Definition client_write (c : api_call) (f : Cloud -> outcome Cloud) : PyM S unit :=
  record_call c ;;;
  let* cl := gets (fun s => cloud (get_env s)) in
  let* cl' := lift (f cl) in
  set_cloud cl'.

Definition call_Tado (username password : pyval) : PyM S unit :=
  client_read (CallTado username password) (fun c => Tado_login c username password).

(** [tado.setDebugging(True)] only switches the client's debug output. *)
Definition call_setDebugging (b : bool) : PyM S unit :=
  client_read (CallSetDebugging b) (fun _ => Ok tt).

Definition call_getState (zone : pyval) : PyM S pyval :=
  client_read (CallGetState zone) (fun c => getState c zone).

Definition call_getDevices : PyM S pyval :=
  client_read CallGetDevices getDevices.

Definition call_getZones : PyM S pyval :=
  client_read CallGetZones getZones.

Definition call_getCapabilities (zone : pyval) : PyM S pyval :=
  client_read (CallGetCapabilities zone) (fun c => getCapabilities c zone).

Definition call_getMe : PyM S pyval :=
  client_read CallGetMe getMe.

Definition call_resetZoneOverlay (zone : pyval) : PyM S unit :=
  client_write (CallResetZoneOverlay zone) (fun c => resetZoneOverlay c zone).

Definition call_setZoneOverlay (zone overlay_mode temperature duration device_type power mode : pyval)
    : PyM S unit :=
  client_write
    (CallSetZoneOverlay zone overlay_mode temperature duration device_type power mode)
    (fun c => setZoneOverlay c zone overlay_mode temperature duration device_type power mode).

Definition log_at (lvl : log_level) (msg : string) (args : list pyval) : PyM S unit :=
  env_modify (fun e => MkEnv (cloud e) (now e) (calls e) (log e ++ [LogRecord lvl msg args])).

Definition log_debug := log_at DEBUG.
Definition log_error := log_at ERROR.

(** The clock and the cloud are read, never moved, by everything but
    [set_cloud]: these lemmas say what each wrapper does to the
    environment. *)
Lemma env_modify_get f s : get_env (fst (env_modify f s)) = f (get_env s).
Proof. apply get_set_env. Qed.

Lemma client_read_run {A} c (f : Cloud -> outcome A) s :
  client_read c f s =
    (set_env s (MkEnv (cloud (get_env s)) (now (get_env s))
                      (calls (get_env s) ++ [c]) (log (get_env s))),
     f (cloud (get_env s))).
Proof. unfold client_read, record_call, env_modify, bind, gets, modify, lift. simpl. now rewrite get_set_env. Qed.
End Calls.

#[export] Hint Rewrite @get_set_env @env_modify_get : tado_rw.

(** ** A mock cloud *)

Module MockCloud.
Record mock : Type := Mock {
  account : string * string;
  zones : list (Z * pyval);
  devices : list pyval;
  down : bool
}.

Fixpoint zone_get (zs : list (Z * pyval)) (z : Z) : option pyval :=
  match zs with
  | [] => None
  | (z', st) :: zs' => if Z.eqb z z' then Some st else zone_get zs' z
  end.

Fixpoint zone_set (zs : list (Z * pyval)) (z : Z) (st : pyval) : list (Z * pyval) :=
  match zs with
  | [] => []
  | (z', st') :: zs' => if Z.eqb z z' then (z', st) :: zs' else (z', st') :: zone_set zs' z st
  end.

Definition with_zones (m : mock) (zs : list (Z * pyval)) : mock :=
  Mock (account m) zs (devices m) (down m).

Definition write_zone (m : mock) (zone : pyval) (st : pyval) : outcome mock :=
  if down m then Raise RuntimeError else
  match zone with
  | PInt z => match zone_get (zones m) z with
              | Some _ => Ok (with_zones m (zone_set (zones m) z st))
              | None => Raise RuntimeError
              end
  | _ => Raise RuntimeError
  end.

#[export] Instance mock_client : TadoClient mock := {
  Tado_login m u p :=
    if down m then Raise RuntimeError
    else match u, p with
         | PStr u', PStr p' => if bool_decide ((u', p') = account m) then Ok tt else Raise HTTPError
         | _, _ => Raise HTTPError
         end;
  getState m zone :=
    if down m then Raise RuntimeError else
    match zone with
    | PInt z => match zone_get (zones m) z with Some st => Ok st | None => Raise RuntimeError end
    | _ => Raise RuntimeError
    end;
  getDevices m := if down m then Raise RuntimeError else Ok (PList (devices m));
  getZones m := if down m then Raise RuntimeError
                else Ok (PList (map (fun zs => PInt (fst zs)) (zones m)));
  getCapabilities m zone := if down m then Raise RuntimeError else Ok (PDict []);
  getMe m := if down m then Raise RuntimeError else Ok (PStr (fst (account m)));
  resetZoneOverlay m zone := write_zone m zone (PDict [("overlay", PNone)]);
  setZoneOverlay m zone mode temp dur devtype power mode' :=
    write_zone m zone (PDict [("overlay", PDict [("type", mode); ("power", power);
                                                 ("temperature", temp)])])
}.
End MockCloud.
