(* ===== verification/DataStore.v ===== *)
(** * [TadoDataStore] (src lines 56-145)

    The store keeps the registry [self.sensors] (an insertion-ordered dict
    from data ids to sensor descriptors), the cache [self.data] (data id ->
    last payload or [None]) and the slot of the [Throttle] decorator that
    wraps [update].  The program state of its methods is [World]: the
    environment of [TadoApi] (cloud, clock, call trace, log) and the store.

    The file holds the methods, the pure meaning [entry_value] of one turn
    of the refresh loop and [refresh] of the whole loop, the refinement of
    the loop by [refresh], the behaviour of [update] under the throttle,
    the forced refresh after each write, the invariant that the cache and
    the registry have the same keys, and the error behaviour of the loop. *)

From S2P Require Import Prelude Throttle TadoApi.
From Stdlib Require Import ZArith Lia Sorted.
Local Open Scope Z_scope.

(** [MIN_TIME_BETWEEN_UPDATES = timedelta(seconds=10)], in microseconds. *)
Definition MIN_TIME_BETWEEN_UPDATES : Z := 10 * 1000000.

(** A sensor descriptor: the dict a platform passes to [add_sensor], with
    the keys ["id"], ["name"] and ["zone"] or ["device"]. *)
Definition sensor : Type := pydict pyval.

Record TadoDataStore : Type := MkStore {
  sensors : pydict sensor;
  data : gmap string pyval;
  throttle_last : option Z
}.

(** [TadoDataStore.__init__]: empty registry and cache; the decorator has
    not run yet.  The client handle [self.tado] is the environment's. *)
Definition TadoDataStore_init : TadoDataStore := MkStore [] ∅ None.

Record World (Cloud : Type) : Type := MkWorld {
  w_env : Env Cloud;
  w_store : TadoDataStore
}.
Arguments MkWorld {Cloud} w_env w_store.
Arguments w_env {Cloud} w.
Arguments w_store {Cloud} w.

#[export] Instance world_has_env {Cloud} : HasEnv Cloud (World Cloud) := {
  get_env := w_env;
  set_env w e := MkWorld e (w_store w);
  get_set_env _ _ := eq_refl
}.

(** [self.data.get]: the pure reading of the cache by [get_data]. *)
Definition get_data (self : TadoDataStore) (data_id : string) : pyval :=
  match data self !! data_id with
  | Some v => v
  | None => PDict [("error", PStr "no data")]
  end.

Section Store.
Context {Cloud : Type} `{TadoClient Cloud}.

Definition store_modify (f : TadoDataStore -> TadoDataStore) : PyM (World Cloud) unit :=
  modify (fun w => MkWorld (w_env w) (f (w_store w))).

(** [self.data[data_id] = data] *)
Definition set_data (data_id : string) (v : pyval) : PyM (World Cloud) unit :=
  store_modify (fun st => MkStore (sensors st) (<[data_id := v]> (data st)) (throttle_last st)).

(** The slot of the decorator and the clock, for [throttle]. *)
Definition get_last (w : World Cloud) : option Z := throttle_last (w_store w).
Definition set_last (w : World Cloud) (t : Z) : World Cloud :=
  MkWorld (w_env w) (MkStore (sensors (w_store w)) (data (w_store w)) (Some t)).

(** Lines 73-79: the zone branch of the [try]. *)
Definition query_zone (sensor : sensor) : PyM (World Cloud) pyval :=
  let* id := lift (dict_getitem sensor "id") in
  let* name := lift (dict_getitem sensor "name") in
  log_debug "Querying mytado.com for zone %s %s" [id; name] ;;;
  call_getState id.

(** Lines 81-87: the device branch of the [try]. *)
Definition query_device (sensor : sensor) : PyM (World Cloud) pyval :=
  let* id := lift (dict_getitem sensor "id") in
  let* name := lift (dict_getitem sensor "name") in
  log_debug "Querying mytado.com for device %s %s" [id; name] ;;;
  let* devices := call_getDevices in
  lift (py_index0 devices).

(** Lines 89-92: the handler of [except RuntimeError]. *)
Definition update_error (sensor : sensor) : PyM (World Cloud) unit :=
  let* id1 := lift (dict_getitem sensor "id") in
  let* id2 := lift (dict_getitem sensor "id") in
  log_error "Unable to connect to myTado. %s %s" [id1; id2].

(** Lines 70-94: one turn of the loop.  The [try] block assigns [data]
    in two statements; a [RuntimeError] in the second one is handled
    with the value the first one assigned, which is written as a [try]
    whose [else] branch holds the second statement in its own [try]. *)
Definition update_entry (data_id : string) (sensor : sensor) : PyM (World Cloud) unit :=
  let* data :=
    py_try (if dict_mem sensor "zone" then query_zone sensor else ret PNone)
      is_RuntimeError (update_error sensor ;;; ret PNone)
      (fun data =>
         py_try (if dict_mem sensor "device" then query_device sensor else ret data)
           is_RuntimeError (update_error sensor ;;; ret data)
           ret) in
  set_data data_id data.

(** Line 69: [for data_id, sensor in list(self.sensors.items())]. *)
Fixpoint update_loop (items : list (string * sensor)) : PyM (World Cloud) unit :=
  match items with
  | [] => ret tt
  | (data_id, s) :: rest => update_entry data_id s ;;; update_loop rest
  end.

Definition update_body : PyM (World Cloud) unit :=
  let* items := gets (fun w => sensors (w_store w)) in
  update_loop items.

(** Lines 66-67: [update] under [@Throttle(MIN_TIME_BETWEEN_UPDATES)];
    [no_throttle] is the keyword argument the decorator pops. *)
Definition update (no_throttle : bool) : PyM (World Cloud) (option unit) :=
  throttle get_last set_last utcnow MIN_TIME_BETWEEN_UPDATES no_throttle update_body.

(** Lines 96-99. *)
Definition add_sensor (data_id : string) (s : sensor) : PyM (World Cloud) unit :=
  store_modify (fun st => MkStore (dict_set (sensors st) data_id s)
                                  (<[data_id := PNone]> (data st)) (throttle_last st)).

(** Lines 110-120: read wrappers. *)
Definition get_zones : PyM (World Cloud) pyval := call_getZones.
Definition get_capabilities (tado_id : pyval) : PyM (World Cloud) pyval := call_getCapabilities tado_id.
Definition get_me : PyM (World Cloud) pyval := call_getMe.

(** Lines 122-125. *)
Definition reset_zone_overlay (zone_id : pyval) : PyM (World Cloud) unit :=
  call_resetZoneOverlay zone_id ;;;
  update true ;;;
  ret tt.

(** Lines 127-140; the defaults of the Python signature are the callers'
    business: [temperature=None, duration=None, device_type="HEATING",
    mode=None]. *)
Definition set_zone_overlay (zone_id overlay_mode temperature duration device_type mode : pyval)
    : PyM (World Cloud) unit :=
  call_setZoneOverlay zone_id overlay_mode temperature duration device_type (PStr "ON") mode ;;;
  update true ;;;
  ret tt.

(** Lines 142-145; the client's [mode] parameter keeps its default
    [None]. *)
Definition set_zone_off (zone_id overlay_mode device_type : pyval) : PyM (World Cloud) unit :=
  call_setZoneOverlay zone_id overlay_mode PNone PNone device_type (PStr "OFF") PNone ;;;
  update true ;;;
  ret tt.
End Store.

(** ** The pure meaning of the refresh loop *)

Section Meaning.
Context {Cloud : Type} `{TadoClient Cloud}.

(** What the statements before the client call raise, or the id. *)
Definition id_and_name (s : sensor) : outcome pyval :=
  match dict_getitem s "id" with
  | Ok id => match dict_getitem s "name" with Ok _ => Ok id | Raise e => Raise e end
  | Raise e => Raise e
  end.

Definition zone_value (c : Cloud) (s : sensor) : outcome pyval :=
  if dict_mem s "zone" then
    match id_and_name s with Ok id => getState c id | Raise e => Raise e end
  else Ok PNone.

Definition device_value (c : Cloud) (s : sensor) (d1 : pyval) : outcome pyval :=
  if dict_mem s "device" then
    match id_and_name s with
    | Ok _ => match getDevices c with Ok v => py_index0 v | Raise e => Raise e end
    | Raise e => Raise e
    end
  else Ok d1.

(** The handler reads [sensor["id"]] before it logs. *)
Definition handled (s : sensor) (d : pyval) : outcome pyval :=
  match dict_getitem s "id" with Ok _ => Ok d | Raise e => Raise e end.

(** The value one turn of the loop caches for the entry [s] against the
    cloud [c], or the exception that escapes the turn. *)
Definition entry_value (c : Cloud) (s : sensor) : outcome pyval :=
  match zone_value c s with
  | Raise e => if is_RuntimeError e then handled s PNone else Raise e
  | Ok d1 =>
      match device_value c s d1 with
      | Raise e => if is_RuntimeError e then handled s d1 else Raise e
      | Ok d2 => Ok d2
      end
  end.

(** The cache after the loop over [items] from the cache [d], and whether
    the loop ran to its end. *)
Fixpoint refresh (c : Cloud) (items : list (string * sensor)) (d : gmap string pyval)
    : gmap string pyval * outcome unit :=
  match items with
  | [] => (d, Ok tt)
  | (data_id, s) :: rest =>
      match entry_value c s with
      | Ok v => refresh c rest (<[data_id := v]> d)
      | Raise e => (d, Raise e)
      end
  end.

(** [w'] differs from [w] at most in the log and by calls appended to
    the trace. *)
Definition frame (w w' : World Cloud) : Prop :=
  w_store w' = w_store w /\ cloud (w_env w') = cloud (w_env w) /\
  now (w_env w') = now (w_env w) /\ calls (w_env w) `prefix_of` calls (w_env w').

Lemma frame_refl w : frame w w.
Proof. done. Qed.

Lemma frame_trans w1 w2 w3 : frame w1 w2 -> frame w2 w3 -> frame w1 w3.
Proof. intros (?&?&?&?) (?&?&?&?). split_and!; try congruence. by etrans. Qed.
End Meaning.

#[export] Hint Resolve frame_refl : tado.

Ltac ds_unfold :=
  unfold query_zone, query_device, update_error, log_debug, log_error, log_at,
    call_getState, call_getDevices, client_read, record_call, env_modify,
    set_data, store_modify in *;
  py_unfold.

Section PureAs.
Context {Cloud : Type} `{TadoClient Cloud}.
Implicit Types (w : World Cloud).

(** [m] reads the cloud without changing the store, the cloud or the
    clock (it may add to the trace and the log), and its outcome is [f]
    of the cloud. *)
Inductive pure_as {A} (m : PyM (World Cloud) A) (f : Cloud -> outcome A) : Prop :=
| PureAs : (forall w, frame w (fst (m w)) /\ snd (m w) = f (cloud (w_env w))) ->
           pure_as m f.

Lemma pure_as_run {A} (m : PyM (World Cloud) A) f w :
  pure_as m f -> frame w (fst (m w)) /\ snd (m w) = f (cloud (w_env w)).
Proof. intros [Hm]. apply Hm. Qed.

Lemma pure_as_bind_run {A B} (m : PyM (World Cloud) A) f (k : A -> PyM (World Cloud) B) w :
  pure_as m f ->
  exists w1, frame w w1 /\
    bind m k w = match f (cloud (w_env w)) with Ok a => k a w1 | Raise e => (w1, Raise e) end.
Proof.
  intros [Hm]. destruct (Hm w) as [Hf Ho]. unfold bind.
  destruct (m w) as [w1 o1]. simpl in *. subst o1. eauto.
Qed.

Lemma pure_as_ret {A} (a : A) : pure_as (ret a) (fun _ => Ok a).
Proof. by constructor. Qed.

Lemma pure_as_lift {A} (o : outcome A) : pure_as (lift o) (fun _ => o).
Proof. by constructor. Qed.

Lemma pure_as_ext {A} (m : PyM (World Cloud) A) f g :
  (forall c, f c = g c) -> pure_as m f -> pure_as m g.
Proof. intros Hfg [Hm]. constructor. intros w. rewrite <- Hfg. apply Hm. Qed.

Lemma pure_as_bind {A B} (m : PyM (World Cloud) A) (k : A -> PyM (World Cloud) B) f g :
  pure_as m f -> (forall a, pure_as (k a) (g a)) ->
  pure_as (bind m k) (fun c => match f c with Ok a => g a c | Raise e => Raise e end).
Proof.
  intros [Hm] Hk. constructor. intros w. unfold bind. destruct (Hm w) as [Hf Ho].
  destruct (m w) as [w1 o1]; simpl in *; subst o1.
  destruct (f _) as [a|e]; [|done].
  destruct (pure_as_run _ _ w1 (Hk a)) as [Hf2 Ho2]. destruct Hf as (? & Hc & ? & ?).
  split; [by eapply frame_trans|]. by rewrite Ho2, Hc.
Qed.

Lemma pure_as_try {A B} (body : PyM (World Cloud) A) matches (h : PyM (World Cloud) B) k f fh g :
  pure_as body f -> pure_as h fh -> (forall a, pure_as (k a) (g a)) ->
  pure_as (py_try body matches h k)
    (fun c => match f c with
              | Ok a => g a c
              | Raise e => if matches e then fh c else Raise e
              end).
Proof.
  intros [Hb] [Hh] Hk. constructor. intros w. unfold py_try. destruct (Hb w) as [Hf Ho].
  destruct (body w) as [w1 o1]; simpl in *; subst o1.
  destruct Hf as (? & Hc & ? & ?).
  destruct (f _) as [a|e].
  - destruct (pure_as_run _ _ w1 (Hk a)) as [Hf2 Ho2].
    split; [by eapply frame_trans|]. by rewrite Ho2, Hc.
  - destruct (matches e); [|done].
    destruct (Hh w1) as [Hf2 Ho2]. split; [by eapply frame_trans|]. by rewrite Ho2, Hc.
Qed.

Lemma pure_as_if {A} (b : bool) (m1 m2 : PyM (World Cloud) A) f1 f2 :
  pure_as m1 f1 -> pure_as m2 f2 -> pure_as (if b then m1 else m2) (if b then f1 else f2).
Proof. by destruct b. Qed.

Lemma pure_as_log lvl msg args : pure_as (log_at lvl msg args) (fun _ => Ok tt).
Proof. by constructor. Qed.

Lemma pure_as_client_read {A} c (f : Cloud -> outcome A) : pure_as (client_read c f) f.
Proof. constructor. intros w. rewrite client_read_run. unfold frame. simpl. split_and!; try done. by apply prefix_app_r. Qed.

End PureAs.

Ltac pure_as_build :=
  unfold call_getState, call_getDevices, call_getZones, call_getCapabilities,
    call_getMe, log_debug, log_error;
  repeat match goal with
    | |- pure_as (client_read ?c ?f) _ => apply (pure_as_client_read c f)
    | |- pure_as (lift ?o) _ => apply (pure_as_lift o)
    | |- pure_as (ret ?a) _ => apply (pure_as_ret a)
    | |- pure_as (log_at ?l ?m ?a) _ => apply (pure_as_log l m a)
    | |- pure_as (bind _ _) _ => apply pure_as_bind; [|intros ?]
    | |- pure_as (py_try _ _ _ _) _ => apply pure_as_try; [| |intros ?]
    | |- pure_as (if _ then _ else _) _ => apply pure_as_if
    end.

Section Refinement.
Context {Cloud : Type} `{TadoClient Cloud}.
Implicit Types (w : World Cloud) (s : sensor).

Lemma query_zone_pure s :
  pure_as (query_zone s)
    (fun c => match id_and_name s with Ok id => getState c id | Raise e => Raise e end).
Proof.
  unfold query_zone. eapply pure_as_ext.
  2: pure_as_build.
  intros c. unfold id_and_name. simpl.
  destruct (dict_getitem s "id"), (dict_getitem s "name"); done.
Qed.

Lemma query_device_pure s :
  pure_as (query_device s)
    (fun c => match id_and_name s with
              | Ok _ => match getDevices c with Ok v => py_index0 v | Raise e => Raise e end
              | Raise e => Raise e
              end).
Proof.
  unfold query_device. eapply pure_as_ext; [|pure_as_build].
  intros c. unfold id_and_name. simpl.
  destruct (dict_getitem s "id"), (dict_getitem s "name"); try done; by destruct (getDevices c).
Qed.

Lemma update_error_pure s d : pure_as (Cloud := Cloud) (update_error s ;;; ret d) (fun _ => handled s d).
Proof.
  unfold update_error. eapply pure_as_ext; [|pure_as_build].
  intros c. unfold handled. simpl. by destruct (dict_getitem s "id").
Qed.

(** The [try] block of one turn computes [entry_value]. *)
Lemma entry_try_pure s :
  pure_as
    (py_try (if dict_mem s "zone" then query_zone s else ret PNone)
       is_RuntimeError (update_error s ;;; ret PNone)
       (fun data =>
          py_try (if dict_mem s "device" then query_device s else ret data)
            is_RuntimeError (update_error s ;;; ret data) ret))
    (fun c => entry_value c s).
Proof.
  eapply pure_as_ext; last first.
  { apply pure_as_try; [apply pure_as_if; [apply query_zone_pure|apply pure_as_ret]
                       |apply update_error_pure|intros d1].
    apply pure_as_try; [apply pure_as_if; [apply query_device_pure|apply pure_as_ret]
                       |apply update_error_pure|intros d2; apply pure_as_ret]. }
  intros c. unfold entry_value, zone_value, device_value.
  destruct (dict_mem s "zone"), (dict_mem s "device"); simpl;
    repeat case_match; done.
Qed.

Definition store_data (st : TadoDataStore) (d : gmap string pyval) : TadoDataStore :=
  MkStore (sensors st) d (throttle_last st).

(** [w'] is [w] with the cache replaced by [d], up to trace and log. *)
Definition data_step (w w' : World Cloud) (d : gmap string pyval) : Prop :=
  w_store w' = store_data (w_store w) d /\ cloud (w_env w') = cloud (w_env w) /\
  now (w_env w') = now (w_env w) /\ calls (w_env w) `prefix_of` calls (w_env w').

Lemma update_entry_run data_id s w :
  data_step w (fst (update_entry data_id s w))
    (match entry_value (cloud (w_env w)) s with
     | Ok v => <[data_id := v]> (data (w_store w))
     | Raise _ => data (w_store w)
     end) /\
  snd (update_entry data_id s w) =
    (match entry_value (cloud (w_env w)) s with Ok _ => Ok tt | Raise e => Raise e end).
Proof.
  unfold update_entry.
  destruct (pure_as_bind_run _ _ (fun d => set_data data_id d) w (entry_try_pure s))
    as (w1 & (Hst & Hc & Hn & Hp) & ->).
  destruct (entry_value _ s); unfold data_step, store_data.
  - unfold set_data, store_modify, modify. simpl. rewrite Hst.
    by destruct (w_store w).
  - simpl. rewrite Hst. by destruct (w_store w).
Qed.

(** The loop over the registry refines [refresh]: the cache becomes
    what [refresh] computes from the cloud, and the loop raises exactly
    when [refresh] stops. *)
Lemma update_loop_run items w :
  data_step w (fst (update_loop items w))
    (fst (refresh (cloud (w_env w)) items (data (w_store w)))) /\
  snd (update_loop items w) = snd (refresh (cloud (w_env w)) items (data (w_store w))).
Proof.
  revert w. induction items as [|[data_id s] rest IH]; intros w; simpl.
  - unfold data_step, store_data. by destruct (w_store w).
  - unfold bind.
    destruct (update_entry_run data_id s w) as [(Hst & Hc & Hn & Hp) Ho].
    destruct (update_entry data_id s w) as [w1 o1]. simpl in *. subst o1.
    destruct (entry_value _ s) as [v|e]; simpl.
    + destruct (IH w1) as [(Hst' & Hc' & Hn' & Hp') Ho'].
      rewrite Hst, Hc in *. simpl in *.
      unfold data_step, store_data in *. rewrite Hst'. simpl.
      split; [split_and!; try congruence; by etrans | done].
    + done.
Qed.
End Refinement.

(** ** [update] under the throttle *)

Section Update.
Context {Cloud : Type} `{TadoClient Cloud}.
Implicit Types (w : World Cloud).

Definition update_due (no_throttle : bool) w : bool :=
  throttle_due get_last utcnow MIN_TIME_BETWEEN_UPDATES no_throttle w.

Lemma update_body_run w :
  data_step w (fst (update_body w))
    (fst (refresh (cloud (w_env w)) (sensors (w_store w)) (data (w_store w)))) /\
  snd (update_body w) = snd (refresh (cloud (w_env w)) (sensors (w_store w)) (data (w_store w))).
Proof. apply update_loop_run. Qed.

(** The run of [update], due or not. *)
Lemma update_run no_throttle w :
  let st := w_store w in
  let r := refresh (cloud (w_env w)) (sensors st) (data st) in
  if update_due no_throttle w then
    w_store (fst (update no_throttle w)) =
      MkStore (sensors st) (fst r)
        (match snd r with Ok _ => Some (now (w_env w)) | Raise _ => throttle_last st end) /\
    cloud (w_env (fst (update no_throttle w))) = cloud (w_env w) /\
    now (w_env (fst (update no_throttle w))) = now (w_env w) /\
    calls (w_env w) `prefix_of` calls (w_env (fst (update no_throttle w))) /\
    snd (update no_throttle w) = (match snd r with Ok _ => Ok (Some tt) | Raise e => Raise e end)
  else update no_throttle w = (w, Ok None).
Proof.
  simpl. unfold update, update_due.
  rewrite (throttle_unfold get_last set_last utcnow).
  destruct (throttle_due _ _ _ _ _); [|done].
  destruct (update_body_run w) as [(Hst & Hc & Hn & Hp) Ho].
  destruct (update_body w) as [w1 [[]|e]]; simpl in *; rewrite <- Ho.
  - unfold set_last, utcnow, store_data in *. simpl.
    rewrite Hst, Hn. simpl. split_and!; done.
  - rewrite Hst. unfold store_data. split_and!; done.
Qed.
(** C1: the functional behaviour of [update].  When the call is due, the
    cache becomes what [refresh] computes from the current cloud; the
    decorator records the current time if the loop completed and keeps
    the previous one if it raised; the exception propagates.  When it is
    not due, nothing changes and the result is [None]. *)
Theorem update_spec no_throttle w :
  let st := w_store w in
  let r := refresh (cloud (w_env w)) (sensors st) (data st) in
  if update_due no_throttle w then
    w_store (fst (update no_throttle w)) =
      MkStore (sensors st) (fst r)
        (match snd r with Ok _ => Some (now (w_env w)) | Raise _ => throttle_last st end) /\
    cloud (w_env (fst (update no_throttle w))) = cloud (w_env w) /\
    now (w_env (fst (update no_throttle w))) = now (w_env w) /\
    calls (w_env w) `prefix_of` calls (w_env (fst (update no_throttle w))) /\
    snd (update no_throttle w) = (match snd r with Ok _ => Ok (Some tt) | Raise e => Raise e end)
  else update no_throttle w = (w, Ok None).
Proof. apply update_run. Qed.
End Update.

(** ** The invariant of the store *)

(** The registry has no duplicate id, and the cache has an entry exactly
    for the registered ids. *)
Definition store_inv (st : TadoDataStore) : Prop :=
  NoDup (dict_keys (sensors st)) /\
  forall k, k ∈ dict_keys (sensors st) <-> is_Some (data st !! k).

Lemma store_inv_init : store_inv TadoDataStore_init.
Proof.
  split; [constructor|]. intros k. simpl. rewrite lookup_empty.
  split; [by intros ?%not_elem_of_nil | by intros [? ?]].
Qed.

Section Invariant.
Context {Cloud : Type} `{TadoClient Cloud}.
Implicit Types (w : World Cloud).

(** [refresh] writes only the ids it goes through. *)
Lemma refresh_dom c items d k :
  (forall k' s, (k', s) ∈ items -> is_Some (d !! k')) ->
  is_Some (fst (refresh c items d) !! k) <-> is_Some (d !! k).
Proof.
  revert d. induction items as [|[k' s] rest IH]; intros d Hin; simpl; [done|].
  destruct (entry_value c s) as [v|e]; simpl; [|done].
  rewrite IH.
  - rewrite lookup_insert. case_decide; subst; [|done].
    split; [intros _; apply (Hin k s); left | done].
  - intros k'' s' Hk. rewrite lookup_insert. case_decide; [done|].
    apply (Hin k'' s'). by right.
Qed.

Lemma store_inv_sensors_dom st k s :
  store_inv st -> (k, s) ∈ sensors st -> is_Some (data st !! k).
Proof.
  intros [_ Hdom] Hk. apply Hdom. unfold dict_keys.
  apply list_elem_of_fmap. by exists (k, s).
Qed.

Lemma store_inv_refresh st c :
  store_inv st -> store_inv (MkStore (sensors st) (fst (refresh c (sensors st) (data st)))
                                     (throttle_last st)).
Proof.
  intros Hinv. split; [apply Hinv|]. intros k. simpl.
  rewrite refresh_dom; [apply Hinv|]. intros k' s'. by apply store_inv_sensors_dom.
Qed.

Lemma store_inv_add_sensor st k s :
  store_inv st ->
  store_inv (MkStore (dict_set (sensors st) k s) (<[k := PNone]> (data st)) (throttle_last st)).
Proof.
  intros [Hnd Hdom]. split; simpl; [by apply dict_set_NoDup|].
  intros k'. rewrite dict_keys_set_elem, lookup_insert, Hdom.
  case_decide; subst; naive_solver.
Qed.
End Invariant.

(** ** The write wrappers force a refresh *)

Section Writes.
Context {Cloud : Type} `{TadoClient Cloud}.
Implicit Types (w : World Cloud).

Lemma client_write_run c f w :
  client_write c f w =
    let e := w_env w in
    match f (cloud e) with
    | Ok c' => (MkWorld (MkEnv c' (now e) (calls e ++ [c]) (log e)) (w_store w), Ok tt)
    | Raise ex => (MkWorld (MkEnv (cloud e) (now e) (calls e ++ [c]) (log e)) (w_store w), Raise ex)
    end.
Proof.
  unfold client_write, record_call, set_cloud, env_modify. py_unfold.
  by destruct (f _).
Qed.

Lemma update_forced_due w : update_due true w = true.
Proof. done. Qed.

(** What a write of the client [c] followed by
    [self.update(no_throttle=True)] leaves, when the client answers [o]:
    on success the cloud is the new one and the cache is refreshed from
    it whatever the time of the last refresh, and the decorator records
    the current time; on failure only the call is recorded and the
    exception propagates. *)
Definition write_post (c : api_call) (o : outcome Cloud) w (r : World Cloud * outcome unit)
    : Prop :=
  let e := w_env w in
  let st := w_store w in
  match o with
  | Ok c' =>
      let rf := refresh c' (sensors st) (data st) in
      cloud (w_env (fst r)) = c' /\ now (w_env (fst r)) = now e /\
      (exists rest, calls (w_env (fst r)) = calls e ++ [c] ++ rest) /\
      w_store (fst r) =
        MkStore (sensors st) (fst rf)
          (match snd rf with Ok _ => Some (now e) | Raise _ => throttle_last st end) /\
      snd r = (match snd rf with Ok _ => Ok tt | Raise ex => Raise ex end)
  | Raise ex =>
      cloud (w_env (fst r)) = cloud e /\ now (w_env (fst r)) = now e /\
      calls (w_env (fst r)) = calls e ++ [c] /\ w_store (fst r) = st /\ snd r = Raise ex
  end.

Lemma write_then_update_run c f w :
  write_post c (f (cloud (w_env w))) w ((client_write c f ;;; update true ;;; ret tt) w).
Proof.
  unfold write_post. simpl. unfold bind. rewrite client_write_run. simpl.
  destruct (f (cloud (w_env w))) as [c'|ex]; [|done].
  set (w1 := MkWorld _ _).
  pose proof (update_run true w1) as Hu. rewrite update_forced_due in Hu. simpl in Hu.
  destruct Hu as (Hst & Hc & Hn & [rest Hrest] & Ho).
  destruct (update true w1) as [w2 o2]. simpl in *. subst o2.
  destruct (snd (refresh c' _ _)); simpl;
    (split_and!; [done|done| exists rest; rewrite Hrest; by rewrite <- app_assoc |done|done]).
Qed.

(** C4: [set_zone_overlay] sends [setZoneOverlay] with power ["ON"] and
    then refreshes the cache from the new cloud state, whatever the
    throttle says; if the client raises, nothing is refreshed. *)
Theorem set_zone_overlay_spec w zone_id overlay_mode temperature duration device_type mode :
  write_post
    (CallSetZoneOverlay zone_id overlay_mode temperature duration device_type (PStr "ON") mode)
    (setZoneOverlay (cloud (w_env w)) zone_id overlay_mode temperature duration device_type
       (PStr "ON") mode)
    w (set_zone_overlay zone_id overlay_mode temperature duration device_type mode w).
Proof.
  exact (write_then_update_run _ (fun c => setZoneOverlay c zone_id overlay_mode temperature
                                              duration device_type (PStr "ON") mode) w).
Qed.

(** C10: [reset_zone_overlay] sends [resetZoneOverlay] and then refreshes
    the cache from the new cloud state, whatever the throttle says. *)
Theorem reset_zone_overlay_spec w zone_id :
  write_post (CallResetZoneOverlay zone_id) (resetZoneOverlay (cloud (w_env w)) zone_id)
    w (reset_zone_overlay zone_id w).
Proof. exact (write_then_update_run _ (fun c => resetZoneOverlay c zone_id) w). Qed.

(** C11: [set_zone_off] sends [setZoneOverlay] with no temperature, no
    duration, power ["OFF"] and the client's default mode, then
    refreshes the cache from the new cloud state. *)
Theorem set_zone_off_spec w zone_id overlay_mode device_type :
  write_post
    (CallSetZoneOverlay zone_id overlay_mode PNone PNone device_type (PStr "OFF") PNone)
    (setZoneOverlay (cloud (w_env w)) zone_id overlay_mode PNone PNone device_type
       (PStr "OFF") PNone)
    w (set_zone_off zone_id overlay_mode device_type w).
Proof.
  exact (write_then_update_run _ (fun c => setZoneOverlay c zone_id overlay_mode PNone PNone
                                              device_type (PStr "OFF") PNone) w).
Qed.
End Writes.

(** ** The store inside the host: reachable states *)

(** The calls the platforms make on the store. *)
Inductive store_op : Type :=
| OpAddSensor (data_id : string) (s : sensor)
| OpUpdate (no_throttle : bool)
| OpGetZones
| OpGetCapabilities (tado_id : pyval)
| OpGetMe
| OpResetZoneOverlay (zone_id : pyval)
| OpSetZoneOverlay (zone_id overlay_mode temperature duration device_type mode : pyval)
| OpSetZoneOff (zone_id overlay_mode device_type : pyval).

Section Host.
Context {Cloud : Type} `{TadoClient Cloud}.
Implicit Types (w : World Cloud).

Definition run_op (o : store_op) : PyM (World Cloud) unit :=
  match o with
  | OpAddSensor data_id s => add_sensor data_id s
  | OpUpdate nt => update nt ;;; ret tt
  | OpGetZones => get_zones ;;; ret tt
  | OpGetCapabilities tado_id => get_capabilities tado_id ;;; ret tt
  | OpGetMe => get_me ;;; ret tt
  | OpResetZoneOverlay zone_id => reset_zone_overlay zone_id
  | OpSetZoneOverlay zone_id overlay_mode temperature duration device_type mode =>
      set_zone_overlay zone_id overlay_mode temperature duration device_type mode
  | OpSetZoneOff zone_id overlay_mode device_type => set_zone_off zone_id overlay_mode device_type
  end.

(** One step of the host: a platform calls the store (whatever the call
    raises, its effects stay), the clock moves forward, or the cloud
    changes by itself (a thermostat, the mobile app). *)
Inductive host_step : World Cloud -> World Cloud -> Prop :=
| HostCall o w : host_step w (fst (run_op o w))
| HostTick w t :
    now (w_env w) <= t ->
    host_step w (MkWorld (MkEnv (cloud (w_env w)) t (calls (w_env w)) (log (w_env w))) (w_store w))
| HostCloud w c :
    host_step w (MkWorld (MkEnv c (now (w_env w)) (calls (w_env w)) (log (w_env w))) (w_store w)).

(** The decorator never records a time after the clock. *)
Definition clock_inv w : Prop :=
  match throttle_last (w_store w) with Some t => t <= now (w_env w) | None => True end.

Definition world_inv w : Prop := store_inv (w_store w) /\ clock_inv w.

Lemma world_inv_refreshed w (w' : World Cloud) c d t :
  world_inv w -> d = fst (refresh c (sensors (w_store w)) (data (w_store w))) ->
  w_store w' = MkStore (sensors (w_store w)) d t ->
  now (w_env w') = now (w_env w) ->
  (t = throttle_last (w_store w) \/ t = Some (now (w_env w))) -> world_inv w'.
Proof.
  intros [Hinv Hclk] -> Hst Hn Ht. split.
  - rewrite Hst. apply (store_inv_refresh _ c) in Hinv. apply Hinv.
  - unfold clock_inv in *. rewrite Hst, Hn. simpl.
    destruct Ht as [->| ->]; [done | lia].
Qed.
End Host.

Section HostInv.
Context {Cloud : Type} `{TadoClient Cloud}.
Implicit Types (w : World Cloud).

Lemma world_inv_frame w w' : world_inv w -> frame w w' -> world_inv w'.
Proof.
  intros [Hinv Hclk] (Hst & _ & Hn & _). split; [by rewrite Hst|].
  unfold clock_inv in *. by rewrite Hst, Hn.
Qed.

Lemma world_inv_write c o w :
  world_inv w -> forall r, write_post c o w r -> world_inv (fst r).
Proof.
  intros Hw r. unfold write_post. destruct o as [c'|ex].
  - intros (_ & Hn & _ & Hst & Ho). eapply world_inv_refreshed; [done|done|exact Hst|done|].
    destruct (snd _); auto.
  - intros (_ & Hn & _ & Hst & _). destruct Hw as [Hinv Hclk].
    split; [by rewrite Hst|]. unfold clock_inv in *. by rewrite Hst, Hn.
Qed.

Lemma world_inv_update nt w : world_inv w -> world_inv (fst (update nt w)).
Proof.
  intros Hw. pose proof (update_run nt w) as Hu. simpl in Hu.
  destruct (update_due nt w).
  - destruct Hu as (Hst & _ & Hn & _).
    eapply world_inv_refreshed; [done|done|exact Hst|done|]. destruct (snd _); auto.
  - by rewrite Hu.
Qed.

Lemma world_inv_read {A} c (f : Cloud -> outcome A) w :
  world_inv w -> world_inv (fst (client_read c f w)).
Proof.
  intros Hw. eapply world_inv_frame; [done|]. apply (pure_as_run _ _ w (pure_as_client_read c f)).
Qed.

(** Every call of a platform keeps the invariant, whatever it raises. *)
Lemma world_inv_run_op o w : world_inv w -> world_inv (fst (run_op o w)).
Proof.
  intros Hw. destruct o; simpl; rewrite ?fst_bind_ret.
  - destruct Hw as [Hinv Hclk]. split; [by apply store_inv_add_sensor|done].
  - by apply world_inv_update.
  - by apply world_inv_read.
  - by apply world_inv_read.
  - by apply world_inv_read.
  - eapply world_inv_write; [done|].
    exact (write_then_update_run _ (fun c => resetZoneOverlay c zone_id) w).
  - eapply world_inv_write; [done|].
    exact (write_then_update_run _ (fun c => setZoneOverlay c zone_id overlay_mode temperature
                                                duration device_type (PStr "ON") mode) w).
  - eapply world_inv_write; [done|].
    exact (write_then_update_run _ (fun c => setZoneOverlay c zone_id overlay_mode PNone PNone
                                                device_type (PStr "OFF") PNone) w).
Qed.

Lemma world_inv_step w w' : host_step w w' -> world_inv w -> world_inv w'.
Proof.
  destruct 1 as [o w|w t Ht|w c]; [apply world_inv_run_op| |];
    intros [Hinv Hclk]; split; try done; unfold clock_inv in *; simpl;
    destruct (throttle_last _); lia.
Qed.

(** C5: in every state the host can reach from a freshly built store, the
    registry has no duplicate id, the cache has an entry exactly for the
    registered ids, and the decorator's last time is not in the future. *)
Theorem reachable_world_inv e w :
  rtc host_step (MkWorld e TadoDataStore_init) w -> world_inv w.
Proof.
  intros Hr. remember (MkWorld e TadoDataStore_init) as w0 eqn:Hw0.
  assert (H0 : world_inv w0) by (subst; split; [apply store_inv_init|done]).
  clear Hw0. induction Hr as [|x y z Hxy _ IH]; [done|].
  apply IH. by eapply world_inv_step.
Qed.
End HostInv.

(** ** Throttling of [update] *)

Section Throttling.
Context {Cloud : Type} `{TadoClient Cloud}.
Implicit Types (w : World Cloud).

Lemma update_ran_sets_last nt w w1 :
  update nt w = (w1, Ok (Some tt)) -> throttle_last (w_store w1) = Some (now (w_env w)).
Proof.
  intros Hu. pose proof (update_run nt w) as Hs. simpl in Hs.
  destruct (update_due nt w); [|by rewrite Hu in Hs].
  destruct Hs as (Hst & _ & _ & _ & Ho). rewrite Hu in Hst, Ho. simpl in *.
  rewrite Hst. simpl. by destruct (snd _).
Qed.

Lemma update_not_due w t :
  throttle_last (w_store w) = Some t -> now (w_env w) - t <= MIN_TIME_BETWEEN_UPDATES ->
  update false w = (w, Ok None).
Proof. intros Hl Ht. by apply (throttle_skip get_last set_last utcnow _ _ w t). Qed.

(** C3: two calls of [update] within the throttle window make one batch
    of queries: after a refresh at time [t] that ran to its end, an
    unforced call at most 10 s later, whatever happened to the clock,
    the cloud, the trace or the log in between, changes nothing and
    calls nothing. *)
Theorem update_twice_one_batch nt w w1 w2 :
  update nt w = (w1, Ok (Some tt)) ->
  w_store w2 = w_store w1 ->
  now (w_env w2) - now (w_env w) <= MIN_TIME_BETWEEN_UPDATES ->
  update false w2 = (w2, Ok None).
Proof.
  intros Hu Hst Ht. apply (update_not_due w2 (now (w_env w))); [|done].
  rewrite Hst. by apply (update_ran_sets_last nt w).
Qed.

(** The host moves the clock between two polls. *)
Definition set_now w (t : Z) : World Cloud :=
  MkWorld (MkEnv (cloud (w_env w)) t (calls (w_env w)) (log (w_env w))) (w_store w).

(** C9: when the platforms poll [update] without forcing it at instants
    [times] in increasing order, the refreshes that really run are more
    than [MIN_TIME_BETWEEN_UPDATES] apart, and more than that after the
    last refresh before the polling started. *)
Theorem update_polls_spaced times w :
  Sorted Z.le times ->
  (forall l, throttle_last (w_store w) = Some l -> Forall (Z.le l) times) ->
  let ran := snd (poll get_last set_last utcnow MIN_TIME_BETWEEN_UPDATES set_now
                    update_body times w) in
  Sorted (spaced MIN_TIME_BETWEEN_UPDATES) ran /\
  (forall l, throttle_last (w_store w) = Some l -> Forall (spaced MIN_TIME_BETWEEN_UPDATES l) ran).
Proof.
  intros Hs Hl.
  assert (Hn : forall w0, utcnow (fst (update_body w0)) = utcnow w0).
  { intros w0. destruct (update_body_run w0) as [(_ & _ & Hn & _) _]. apply Hn. }
  assert (Hlast : forall w0, get_last (fst (update_body w0)) = get_last w0).
  { intros w0. destruct (update_body_run w0) as [(Hst & _) _].
    unfold get_last. by rewrite Hst. }
  exact (poll_after_last get_last set_last utcnow MIN_TIME_BETWEEN_UPDATES
           (fun _ _ => eq_refl) set_now (fun _ _ => eq_refl) (fun _ _ => eq_refl)
           update_body Hn Hlast times w Hs Hl).
Qed.
End Throttling.

(** ** One failing entry does not stop the others *)

(** A descriptor as the platforms build it: it has an id and a name. *)
Definition sensor_wf (s : sensor) : Prop :=
  is_Some (dict_get s "id") /\ is_Some (dict_get s "name").

Section Isolation.
Context {Cloud : Type} `{TadoClient Cloud}.
Implicit Types (w : World Cloud).

(** The client fails only with [RuntimeError], and a device list it
    returns is a non-empty list. *)
Definition client_sound (c : Cloud) : Prop :=
  (forall z e, getState c z = Raise e -> e = RuntimeError) /\
  (forall e, getDevices c = Raise e -> e = RuntimeError) /\
  (forall v, getDevices c = Ok v -> exists x rest, v = PList (x :: rest)).

(** What the spec says an entry caches: the reading of its kind, [None]
    when the query failed; a descriptor with both keys keeps the zone
    reading when the device query fails and is not asked for its device
    when the zone query fails. *)
Definition reading (c : Cloud) (s : sensor) : pyval :=
  let id := match dict_get s "id" with Some v => v | None => PNone end in
  let first_device := match getDevices c with Ok (PList (x :: _)) => Some x | _ => None end in
  if dict_mem s "zone" then
    match getState c id with
    | Ok z => if dict_mem s "device" then match first_device with Some x => x | None => z end
              else z
    | Raise _ => PNone
    end
  else if dict_mem s "device" then match first_device with Some x => x | None => PNone end
  else PNone.

Lemma entry_value_reading c s :
  sensor_wf s -> client_sound c -> entry_value c s = Ok (reading c s).
Proof.
  intros [[id Hid] [name Hname]] (Hz & Hd & Hl).
  unfold entry_value, zone_value, device_value, reading, id_and_name, handled, dict_getitem.
  rewrite Hid, Hname.
  destruct (dict_mem s "zone"), (dict_mem s "device"); try done.
  - destruct (getState c id) as [z|e] eqn:Ez; [|by rewrite (Hz _ _ Ez)].
    destruct (getDevices c) as [v|e] eqn:Ed; [|by rewrite (Hd _ eq_refl)].
    by destruct (Hl v eq_refl) as (x & rest & ->).
  - destruct (getState c id) as [z|e] eqn:Ez; [done|by rewrite (Hz _ _ Ez)].
  - destruct (getDevices c) as [v|e] eqn:Ed; [|by rewrite (Hd _ eq_refl)].
    by destruct (Hl v eq_refl) as (x & rest & ->).
Qed.

Lemma refresh_notin c items d k :
  k ∉ map fst items -> fst (refresh c items d) !! k = d !! k.
Proof.
  revert d. induction items as [|[k' s] rest IH]; intros d Hk; simpl; [done|].
  apply not_elem_of_cons in Hk as [Hne Hk].
  destruct (entry_value c s); simpl; [|done].
  rewrite IH by done. by rewrite lookup_insert_ne.
Qed.

(** When every entry yields a value, the loop completes and each id holds
    the value of its own entry. *)
Lemma refresh_all_ok c items d (f : sensor -> pyval) :
  NoDup (map fst items) ->
  (forall k s, (k, s) ∈ items -> entry_value c s = Ok (f s)) ->
  snd (refresh c items d) = Ok tt /\
  forall k s, (k, s) ∈ items -> fst (refresh c items d) !! k = Some (f s).
Proof.
  revert d. induction items as [|[k0 s0] rest IH]; intros d Hnd Hok; simpl.
  { split; [done|]. by intros k s ?%not_elem_of_nil. }
  apply NoDup_cons in Hnd as [Hk0 Hnd].
  rewrite (Hok k0 s0) by (apply elem_of_cons; by left).
  destruct (IH (<[k0 := f s0]> d) Hnd) as [Ho Hl].
  { intros k s Hin. apply (Hok k s). apply elem_of_cons. by right. }
  split; [done|]. intros k s [[= -> ->]|Hin]%elem_of_cons.
  - rewrite refresh_notin by done. by rewrite lookup_insert_eq.
  - by apply Hl.
Qed.

Lemma update_isolation nt w :
  store_inv (w_store w) -> update_due nt w = true ->
  (forall k s, dict_get (sensors (w_store w)) k = Some s -> sensor_wf s) ->
  client_sound (cloud (w_env w)) ->
  snd (update nt w) = Ok (Some tt) /\
  forall k s, dict_get (sensors (w_store w)) k = Some s ->
    data (w_store (fst (update nt w))) !! k = Some (reading (cloud (w_env w)) s).
Proof.
  intros [Hnd _] Hdue Hwf Hc.
  pose proof (update_run nt w) as Hu. simpl in Hu. rewrite Hdue in Hu.
  destruct Hu as (Hst & _ & _ & _ & Ho).
  destruct (refresh_all_ok (cloud (w_env w)) (sensors (w_store w)) (data (w_store w))
              (reading (cloud (w_env w))) Hnd) as [Hr Hl].
  { intros k s Hin. apply entry_value_reading; [|done].
    apply (Hwf k). by apply dict_elem_get. }
  rewrite Ho, Hst, Hr. split; [done|]. intros k s Hk. simpl.
  by apply Hl, dict_get_elem.
Qed.

(** C2: the refresh isolates failures.  If every registered descriptor
    has an id and a name and the client fails only with [RuntimeError]
    and never returns an empty device list, a due [update] runs to its
    end, and every registered id holds the reading of its entry, [None]
    for the entries whose query failed. *)
Theorem update_isolates_failures nt w :
  store_inv (w_store w) -> update_due nt w = true ->
  (forall k s, dict_get (sensors (w_store w)) k = Some s -> sensor_wf s) ->
  client_sound (cloud (w_env w)) ->
  snd (update nt w) = Ok (Some tt) /\
  forall k s, dict_get (sensors (w_store w)) k = Some s ->
    data (w_store (fst (update nt w))) !! k = Some (reading (cloud (w_env w)) s).
Proof. apply update_isolation. Qed.

(** C7: a failed query clears the cache.  When the zone query of a
    registered zone entry raises [RuntimeError], a due [update] caches
    [None] for it, whatever value it held before. *)
Theorem update_failure_clears_cache nt w k s id v :
  store_inv (w_store w) -> update_due nt w = true ->
  (forall k' s', dict_get (sensors (w_store w)) k' = Some s' -> sensor_wf s') ->
  client_sound (cloud (w_env w)) ->
  dict_get (sensors (w_store w)) k = Some s -> dict_mem s "zone" = true ->
  dict_get s "id" = Some id -> getState (cloud (w_env w)) id = Raise RuntimeError ->
  data (w_store w) !! k = Some v ->
  data (w_store (fst (update nt w))) !! k = Some PNone.
Proof.
  intros Hinv Hdue Hwf Hc Hk Hz Hid Hst _.
  destruct (update_isolation nt w Hinv Hdue Hwf Hc) as [_ Hl].
  rewrite (Hl k s Hk). unfold reading. by rewrite Hz, Hid, Hst.
Qed.

Lemma entry_value_empty_devices c s :
  sensor_wf s -> dict_mem s "zone" = false -> dict_mem s "device" = true ->
  getDevices c = Ok (PList []) -> entry_value c s = Raise IndexError.
Proof.
  intros [[id Hid] [name Hname]] Hz Hd Hl.
  unfold entry_value, zone_value, device_value, id_and_name, dict_getitem.
  by rewrite Hz, Hd, Hid, Hname, Hl.
Qed.

(** C6: an empty device list aborts the whole refresh.  [getDevices()[0]]
    raises [IndexError], which [except RuntimeError] does not catch: when
    the first registered entry is a device entry and the cloud reports no
    device, a due [update] raises, refreshes no entry and records no
    time, so the next poll queries again at once. *)
Theorem update_empty_device_list_aborts nt w k s rest :
  update_due nt w = true -> sensors (w_store w) = (k, s) :: rest ->
  sensor_wf s -> dict_mem s "zone" = false -> dict_mem s "device" = true ->
  getDevices (cloud (w_env w)) = Ok (PList []) ->
  snd (update nt w) = Raise IndexError /\ w_store (fst (update nt w)) = w_store w.
Proof.
  intros Hdue Hs Hwf Hz Hd Hl.
  pose proof (update_run nt w) as Hu. simpl in Hu. rewrite Hdue in Hu.
  destruct Hu as (Hst & _ & _ & _ & Ho).
  rewrite Hs in Hst, Ho. simpl in Hst, Ho.
  rewrite (entry_value_empty_devices _ s Hwf Hz Hd Hl) in Hst, Ho. simpl in Hst, Ho.
  rewrite Ho, Hst, <- Hs. by destruct (w_store w).
Qed.
End Isolation.

(** ** Reading the cache *)

(** C12: [get_data] on an id that was never registered returns the error
    placeholder [{"error": "no data"}] and raises nothing. *)
Theorem get_data_unregistered st data_id :
  store_inv st -> dict_get (sensors st) data_id = None ->
  get_data st data_id = PDict [("error", PStr "no data")].
Proof.
  intros [_ Hdom] Hk. unfold get_data.
  destruct (data st !! data_id) eqn:E; [|done].
  exfalso. assert (Hin : data_id ∈ dict_keys (sensors st)) by (apply Hdom; by eexists).
  apply dict_get_Some_keys in Hin. rewrite Hk in Hin. by destruct Hin.
Qed.

(** C13: a sensor just registered reads [None] until a refresh, and the
    other entries of the cache are untouched. *)
Theorem add_sensor_get_data {Cloud} (w : World Cloud) data_id s k :
  get_data (w_store (fst (add_sensor data_id s w))) k =
    if String.eqb data_id k then PNone else get_data (w_store w) k.
Proof.
  unfold add_sensor, store_modify, modify, get_data. simpl.
  rewrite lookup_insert. destruct (String.eqb_spec data_id k); by case_decide.
Qed.

(** C26: the order of the registry.  [add_sensor] appends a new id at the
    end of [self.sensors] and keeps an existing id at its place (Python
    dicts keep insertion order), replaces its descriptor, resets its
    cached value to [None] and leaves the throttle alone; so a
    re-registered entry reads [None] until the next refresh. *)
Theorem add_sensor_registry {Cloud} (w : World Cloud) k s :
  let st := w_store w in
  let st' := w_store (fst (add_sensor k s w)) in
  dict_keys (sensors st') =
    (if dict_mem (sensors st) k then dict_keys (sensors st) else dict_keys (sensors st) ++ [k]) /\
  dict_get (sensors st') k = Some s /\ data st' !! k = Some PNone /\
  throttle_last st' = throttle_last st.
Proof.
  simpl. split_and!; [apply dict_keys_set|apply dict_get_set_eq|apply lookup_insert_eq|done].
Qed.

(** ** Witnesses on a mock cloud *)

Module Witnesses.
Import MockCloud.

Definition cloud0 : mock :=
  Mock ("user", "secret") [(1, PStr "21.5C"); (2, PStr "19.0C")] [PStr "bridge"] false.
Definition env0 : Env mock := MkEnv cloud0 1000 [] [].
Definition w0 : World mock := MkWorld env0 TadoDataStore_init.

Definition zone1 : sensor := [("id", PInt 1); ("name", PStr "Living"); ("zone", PBool true)].
Definition zone3 : sensor := [("id", PInt 3); ("name", PStr "Attic"); ("zone", PBool true)].
Definition dev0 : sensor := [("id", PInt 0); ("name", PStr "Bridge"); ("device", PBool true)].

(** A store with three registered entries; zone 3 is unknown to the
    cloud, so its query raises [RuntimeError]. *)
Definition w_reg : World mock :=
  fst (run_op (OpAddSensor "device" dev0)
         (fst (run_op (OpAddSensor "zone 1" zone1)
                (fst (run_op (OpAddSensor "zone 3" zone3) w0))))).

Lemma w_reg_inv : world_inv w_reg.
Proof.
  unfold w_reg. repeat apply world_inv_run_op. split; [apply store_inv_init|done].
Qed.

Lemma cloud0_sound : client_sound cloud0.
Proof.
  split_and!.
  - intros z e. simpl. repeat case_match; congruence.
  - by intros e.
  - intros v [= <-]. by eexists _, _.
Qed.

Lemma w_reg_wf k s : dict_get (sensors (w_store w_reg)) k = Some s -> sensor_wf s.
Proof.
  vm_compute. repeat case_match; intros Hk; try discriminate;
    injection Hk as <-; split; by eexists.
Qed.

Lemma reachable_world_inv_witness :
  world_inv (fst (run_op (OpUpdate false) (fst (run_op (OpAddSensor "zone 1" zone1) w0)))).
Proof.
  apply (reachable_world_inv env0).
  eapply rtc_l; [apply (HostCall (OpAddSensor "zone 1" zone1))|].
  eapply rtc_l; [apply (HostCall (OpUpdate false))|apply rtc_refl].
Defined.

Lemma update_twice_one_batch_witness :
  let w1 := fst (update false w_reg) in
  let w2 := set_now w1 (1000 + 5000000) in
  update false w2 = (w2, Ok None).
Proof.
  intros w1 w2. apply (update_twice_one_batch false w_reg w1 w2).
  - vm_compute. reflexivity.
  - reflexivity.
  - vm_compute. discriminate.
Defined.

Lemma update_polls_spaced_witness :
  let ran := snd (poll get_last set_last utcnow MIN_TIME_BETWEEN_UPDATES set_now
                    update_body [2000; 3000000; 12000000; 12500000] w_reg) in
  Sorted (spaced MIN_TIME_BETWEEN_UPDATES) ran.
Proof.
  intros ran. apply (update_polls_spaced [2000; 3000000; 12000000; 12500000] w_reg).
  - repeat constructor; lia.
  - vm_compute. discriminate.
Defined.

Lemma update_isolates_failures_witness :
  snd (update false w_reg) = Ok (Some tt) /\
  data (w_store (fst (update false w_reg))) !! "zone 1" = Some (PStr "21.5C").
Proof.
  destruct (update_isolates_failures false w_reg) as [Ho Hl].
  - apply w_reg_inv.
  - vm_compute. reflexivity.
  - apply w_reg_wf.
  - apply cloud0_sound.
  - split; [exact Ho|]. apply (Hl "zone 1" zone1). vm_compute. reflexivity.
Defined.

Lemma update_failure_clears_cache_witness :
  data (w_store (fst (update false w_reg))) !! "zone 3" = Some PNone.
Proof.
  apply (update_failure_clears_cache false w_reg "zone 3" zone3 (PInt 3) PNone).
  - apply w_reg_inv.
  - vm_compute. reflexivity.
  - apply w_reg_wf.
  - apply cloud0_sound.
  - vm_compute. reflexivity.
  - vm_compute. reflexivity.
  - vm_compute. reflexivity.
  - vm_compute. reflexivity.
  - vm_compute. reflexivity.
Defined.

(** The same registry against a cloud that reports no device. *)
Definition w_nodev : World mock :=
  fst (run_op (OpAddSensor "zone 1" zone1) (fst (run_op (OpAddSensor "device" dev0)
    (MkWorld (MkEnv (Mock ("user", "secret") [(1, PStr "21.5C")] [] false) 1000 [] [])
             TadoDataStore_init)))).

Lemma update_empty_device_list_aborts_witness :
  snd (update false w_nodev) = Raise IndexError /\ w_store (fst (update false w_nodev)) = w_store w_nodev.
Proof.
  apply (update_empty_device_list_aborts false w_nodev "device" dev0 [("zone 1", zone1)]).
  - vm_compute. reflexivity.
  - vm_compute. reflexivity.
  - split; by eexists.
  - vm_compute. reflexivity.
  - vm_compute. reflexivity.
  - vm_compute. reflexivity.
Defined.

Lemma get_data_unregistered_witness :
  get_data (w_store w_reg) "zone 2" = PDict [("error", PStr "no data")].
Proof.
  apply get_data_unregistered.
  - apply w_reg_inv.
  - vm_compute. reflexivity.
Defined.
End Witnesses.
