(* ===== verification/Setup.v ===== *)
(** * [CONFIG_SCHEMA] and [setup] (src lines 16-53)

    The host validates the configuration with [CONFIG_SCHEMA] before it
    calls [setup(hass, config)].  [setup] reads the credentials, builds the
    client inside a [try], stores a fresh [TadoDataStore] under
    [hass.data["tado_data"]] and loads the two platforms.  The host state
    [Hass] holds the environment of [TadoApi], the typed view of
    [hass.data] (only [TadoDataStore] values are ever stored there by this
    module) and the list of [load_platform] calls made. *)

From S2P Require Import Prelude TadoApi DataStore.
From stdpp Require Import pretty.
From Stdlib Require Import ZArith.

Definition DATA_TADO : string := "tado_data".
Definition DOMAIN : string := "tado".
(** [homeassistant.const]. *)
Definition CONF_USERNAME : string := "username".
Definition CONF_PASSWORD : string := "password".
Definition TADO_COMPONENTS : list string := ["sensor"; "climate"].

(** ** Configuration validation *)

(** [cv.string]: [None], lists and dicts are refused; other values are
    coerced with [str()]. *)
Definition cv_string (v : pyval) : outcome pyval :=
  match v with
  | PNone | PList _ | PDict _ => Raise Invalid
  | PStr s => Ok (PStr s)
  | PInt z => Ok (PStr (pretty z))
  | PBool b => Ok (PStr (if b then "True" else "False"))
  end.

(** Validate the entries of a dict one by one, in their order. *)
Fixpoint validate_entries (f : string -> pyval -> outcome pyval) (d : list (string * pyval))
    : outcome (list (string * pyval)) :=
  match d with
  | [] => Ok []
  | (k, v) :: d' =>
      match f k v with
      | Ok v' => match validate_entries f d' with
                 | Ok d'' => Ok ((k, v') :: d'')
                 | Raise e => Raise e
                 end
      | Raise e => Raise e
      end
  end.

(** The inner [vol.Schema({Required(CONF_USERNAME): cv.string,
    Required(CONF_PASSWORD): cv.string})]: a dict, no other key (the
    default [extra=PREVENT_EXTRA]), both keys present. *)
Definition tado_schema (v : pyval) : outcome pyval :=
  match v with
  | PDict d =>
      match validate_entries
              (fun k x => if bool_decide (k = CONF_USERNAME) || bool_decide (k = CONF_PASSWORD)
                          then cv_string x else Raise Invalid) d with
      | Ok d' => if dict_mem d CONF_USERNAME && dict_mem d CONF_PASSWORD
                 then Ok (PDict d') else Raise Invalid
      | Raise e => Raise e
      end
  | _ => Raise Invalid
  end.

(** Lines 23-33: [DOMAIN] is an optional key validated by [tado_schema];
    other top-level keys pass unchanged ([extra=vol.ALLOW_EXTRA]). *)
Definition CONFIG_SCHEMA (config : pyval) : outcome pyval :=
  match config with
  | PDict d =>
      match validate_entries (fun k x => if bool_decide (k = DOMAIN) then tado_schema x else Ok x) d with
      | Ok d' => Ok (PDict d')
      | Raise e => Raise e
      end
  | _ => Raise Invalid
  end.

(** ** The host and [setup] *)

Record Hass (Cloud : Type) : Type := MkHass {
  h_env : Env Cloud;
  h_data : gmap string TadoDataStore;
  h_platforms : list (string * string)
}.
Arguments MkHass {Cloud} h_env h_data h_platforms.
Arguments h_env {Cloud} h.
Arguments h_data {Cloud} h.
Arguments h_platforms {Cloud} h.

#[export] Instance hass_has_env {Cloud} : HasEnv Cloud (Hass Cloud) := {
  get_env := h_env;
  set_env h e := MkHass e (h_data h) (h_platforms h);
  get_set_env _ _ := eq_refl
}.

Section Setup.
Context {Cloud : Type} `{TadoClient Cloud}.

(** [hass.data[key] = value] *)
Definition hass_data_set (key : string) (v : TadoDataStore) : PyM (Hass Cloud) unit :=
  modify (fun h => MkHass (h_env h) (<[key := v]> (h_data h)) (h_platforms h)).

(** [load_platform(hass, component, DOMAIN, {}, config)]: the host is
    asked to set up [component] for [DOMAIN]. *)
Definition load_platform (component : string) : PyM (Hass Cloud) unit :=
  modify (fun h => MkHass (h_env h) (h_data h) (h_platforms h ++ [(component, DOMAIN)])).

Fixpoint load_platforms (components : list string) : PyM (Hass Cloud) unit :=
  match components with
  | [] => ret tt
  | c :: cs => load_platform c ;;; load_platforms cs
  end.

(** Lines 36-53. *)
Definition setup (config : pyval) : PyM (Hass Cloud) bool :=
  let* conf := lift (py_getitem config DOMAIN) in
  let* username := lift (py_getitem conf CONF_USERNAME) in
  let* password := lift (py_getitem conf CONF_PASSWORD) in
  py_try (call_Tado username password ;;; call_setDebugging true)
    is_RuntimeError_or_HTTPError
    (log_error "Unable to connect to mytado with username and password" [] ;;; ret false)
    (fun _ =>
       hass_data_set DATA_TADO TadoDataStore_init ;;;
       load_platforms TADO_COMPONENTS ;;;
       ret true).
End Setup.

(** ** Validation guarantees the lookups of [setup] *)

Lemma validate_entries_get f d d' k v :
  validate_entries f d = Ok d' -> dict_get d k = Some v ->
  exists v', f k v = Ok v' /\ dict_get d' k = Some v'.
Proof.
  revert d'. induction d as [|[k0 v0] d IH]; intros d' Hd Hk; simpl in *; [done|].
  destruct (f k0 v0) as [v0'|e] eqn:Ef; [|done].
  destruct (validate_entries f d) as [d''|e] eqn:Ed; [|done].
  injection Hd as <-. simpl.
  destruct (String.eqb_spec k k0) as [->|]; [injection Hk as <-; eauto|]. eauto.
Qed.

Lemma cv_string_str v v' : cv_string v = Ok v' -> exists s, v' = PStr s.
Proof. destruct v; simpl; intros [=]; eauto. Qed.

Lemma dict_mem_get {V} (d : pydict V) k : dict_mem d k = true -> exists v, dict_get d k = Some v.
Proof. unfold dict_mem. destruct (dict_get d k); [eauto|done]. Qed.

Lemma tado_schema_credentials v conf :
  tado_schema v = Ok conf ->
  exists u p, py_getitem conf CONF_USERNAME = Ok (PStr u) /\ py_getitem conf CONF_PASSWORD = Ok (PStr p).
Proof.
  destruct v as [| | | | |d]; simpl; try done.
  destruct (validate_entries _ d) as [d'|e] eqn:Ev; [|done].
  destruct (dict_mem d CONF_USERNAME) eqn:Hu, (dict_mem d CONF_PASSWORD) eqn:Hp; try done.
  intros [= <-].
  destruct (dict_mem_get _ _ Hu) as [vu Hvu], (dict_mem_get _ _ Hp) as [vp Hvp].
  destruct (validate_entries_get _ _ _ _ _ Ev Hvu) as (u' & Hu' & Hgu).
  destruct (validate_entries_get _ _ _ _ _ Ev Hvp) as (p' & Hp' & Hgp).
  simpl in Hu', Hp'.
  destruct (cv_string_str _ _ Hu') as [u ->], (cv_string_str _ _ Hp') as [p ->].
  exists u, p. unfold py_getitem, dict_getitem. by rewrite Hgu, Hgp.
Qed.

(** C14: a configuration that [CONFIG_SCHEMA] accepts and that has a [tado]
    section gives [setup] what it reads: [config["tado"]["username"]] and
    [config["tado"]["password"]] exist and are strings, so these lookups
    never raise. *)
Theorem config_schema_credentials raw config :
  CONFIG_SCHEMA raw = Ok config -> (exists v, py_getitem raw DOMAIN = Ok v) ->
  exists conf u p, py_getitem config DOMAIN = Ok conf /\
    py_getitem conf CONF_USERNAME = Ok (PStr u) /\ py_getitem conf CONF_PASSWORD = Ok (PStr p).
Proof.
  destruct raw as [| | | | |d]; simpl; try done.
  destruct (validate_entries _ d) as [d'|e] eqn:Ev; [|done].
  intros [= <-] [v Hv]. unfold dict_getitem in Hv.
  destruct (dict_get d DOMAIN) as [v0|] eqn:Hg; [|done]. injection Hv as ->.
  destruct (validate_entries_get _ _ _ _ _ Ev Hg) as (conf & Hc & Hgc).
  simpl in Hc. destruct (tado_schema_credentials _ _ Hc) as (u & p & Hu & Hp).
  exists conf, u, p. unfold py_getitem, dict_getitem. by rewrite Hgc.
Qed.

(** ** Which error validation raises *)

Lemma validate_entries_raise f d e :
  validate_entries f d = Raise e -> exists k v, (k, v) ∈ d /\ f k v = Raise e.
Proof.
  induction d as [|[k v] d IH]; simpl; [done|].
  destruct (f k v) as [v'|e'] eqn:Ef.
  - destruct (validate_entries f d) as [d''|e''] eqn:Ed; [done|]. intros [= <-].
    destruct (IH eq_refl) as (k' & x & Hin & Hx). exists k', x. split; [by right|done].
  - intros [= <-]. exists k, v. split; [left|done].
Qed.

(** When every error of [f] is [Invalid], one failing entry makes the
    whole validation raise [Invalid], whatever its position. *)
Lemma validate_entries_invalid f d k v e :
  (forall k' v' e', f k' v' = Raise e' -> e' = Invalid) ->
  (k, v) ∈ d -> f k v = Raise e -> validate_entries f d = Raise Invalid.
Proof.
  intros Hf. induction d as [|[k0 v0] d IH]; intros Hin Hkv; simpl; [by apply not_elem_of_nil in Hin|].
  destruct (f k0 v0) as [v0'|e0] eqn:E0; [|by rewrite (Hf _ _ _ E0)].
  apply elem_of_cons in Hin as [[= -> ->]|Hin]; [congruence|].
  by rewrite (IH Hin Hkv).
Qed.

Lemma tado_schema_invalid v e : tado_schema v = Raise e -> e = Invalid.
Proof.
  destruct v as [| | | | |d]; simpl; try congruence.
  destruct (validate_entries _ d) as [d'|e'] eqn:Ev.
  - case_match; congruence.
  - intros [= <-]. destruct (validate_entries_raise _ _ _ Ev) as (k & x & _ & Hx).
    revert Hx. case_match; [|congruence]. destruct x; simpl; congruence.
Qed.

Lemma tado_schema_extra d k v :
  (k, v) ∈ d -> k <> CONF_USERNAME -> k <> CONF_PASSWORD -> tado_schema (PDict d) = Raise Invalid.
Proof.
  intros Hin Hu Hp. simpl. erewrite validate_entries_invalid; [done| |exact Hin|].
  - intros k' v' e'. case_match; [destruct v'; simpl; congruence|congruence].
  - by rewrite !bool_decide_eq_false_2.
Qed.

(** C15: the [tado] section accepts no key besides the credentials.  The
    inner schema keeps voluptuous' default [PREVENT_EXTRA] (lines 25-30),
    so a [tado] section with any other key, such as [scan_interval], makes
    the whole configuration raise [Invalid], wherever the key stands and
    whatever the other entries are; the key is not dropped. *)
Theorem config_schema_rejects_extra_tado_key entries d k v :
  (DOMAIN, PDict d) ∈ entries -> (k, v) ∈ d -> k <> CONF_USERNAME -> k <> CONF_PASSWORD ->
  CONFIG_SCHEMA (PDict entries) = Raise Invalid.
Proof.
  intros Hin Hkv Hu Hp. simpl. erewrite validate_entries_invalid; [done| |exact Hin|].
  - intros k' v' e'. case_match; [apply tado_schema_invalid|congruence].
  - rewrite bool_decide_eq_true_2 by done. exact (tado_schema_extra d k v Hkv Hu Hp).
Qed.

(** ** The shape of a validated configuration *)

Lemma validate_entries_keys f d d' :
  validate_entries f d = Ok d' -> dict_keys d' = dict_keys d.
Proof.
  revert d'. induction d as [|[k v] d IH]; intros d' Hd; simpl in *; [by injection Hd as <-|].
  destruct (f k v); [|done]. destruct (validate_entries f d) as [d''|]; [|done].
  injection Hd as <-. simpl. f_equal. by apply IH.
Qed.

Lemma validate_entries_vals f d d' :
  validate_entries f d = Ok d' -> Forall (fun kv => exists v, f kv.1 v = Ok kv.2) d'.
Proof.
  revert d'. induction d as [|[k v] d IH]; intros d' Hd; simpl in *; [by injection Hd as <-|].
  destruct (f k v) as [v'|] eqn:Ef; [|done].
  destruct (validate_entries f d) as [d''|]; [|done].
  injection Hd as <-. constructor; [by exists v|]. by apply IH.
Qed.

Lemma dict_mem_keys {V} (d1 d2 : pydict V) k :
  dict_keys d1 = dict_keys d2 -> dict_mem d1 k = dict_mem d2 k.
Proof.
  revert d2. induction d1 as [|[k1 v1] d1 IH]; intros [|[k2 v2] d2] Hk; try done.
  injection Hk as -> Hk. unfold dict_mem. simpl.
  destruct (String.eqb k k2); [done|]. by apply IH.
Qed.

(** What the inner schema returns: a dict with both credentials, no
    other key, and strings as values. *)
Definition tado_section_wf (d : pydict pyval) : Prop :=
  dict_mem d CONF_USERNAME = true /\ dict_mem d CONF_PASSWORD = true /\
  Forall (fun kv => (kv.1 = CONF_USERNAME \/ kv.1 = CONF_PASSWORD) /\ exists s, kv.2 = PStr s) d.

Lemma tado_schema_shape v conf :
  tado_schema v = Ok conf -> exists d, conf = PDict d /\ tado_section_wf d.
Proof.
  destruct v as [| | | | |d]; simpl; try done.
  destruct (validate_entries _ d) as [d'|e] eqn:Ev; [|done].
  destruct (dict_mem d CONF_USERNAME) eqn:Hu, (dict_mem d CONF_PASSWORD) eqn:Hp; try done.
  intros [= <-]. exists d'. pose proof (validate_entries_keys _ _ _ Ev) as Hk.
  split; [done|]. unfold tado_section_wf. rewrite !(dict_mem_keys d' d _ Hk), Hu, Hp.
  split; [done|split; [done|]].
  eapply Forall_impl; [exact (validate_entries_vals _ _ _ Ev)|].
  intros [k x'] [x Hx]. simpl in *.
  destruct (bool_decide (k = CONF_USERNAME)) eqn:E1, (bool_decide (k = CONF_PASSWORD)) eqn:E2;
    simpl in Hx; try done;
    [apply bool_decide_eq_true in E1|apply bool_decide_eq_true in E1|apply bool_decide_eq_true in E2];
    (split; [tauto|exact (cv_string_str _ _ Hx)]).
Qed.

(** C23: the type of the validated [tado] section.  When [CONFIG_SCHEMA]
    accepts a configuration, its [tado] section is a dict holding both
    credentials, with no other key, every value a string. *)
Theorem config_schema_tado_shape raw config conf :
  CONFIG_SCHEMA raw = Ok config -> py_getitem config DOMAIN = Ok conf ->
  exists d, conf = PDict d /\ tado_section_wf d.
Proof.
  destruct raw as [| | | | |d]; simpl; try done.
  destruct (validate_entries _ d) as [d'|e] eqn:Ev; [|done].
  intros [= <-] Hc. simpl in Hc. unfold dict_getitem in Hc.
  destruct (dict_get d' DOMAIN) as [v|] eqn:Hg; [|done]. injection Hc as ->.
  pose proof (validate_entries_vals _ _ _ Ev) as Hall.
  rewrite Forall_forall in Hall. destruct (Hall (DOMAIN, conf)) as [x Hx]; [by apply dict_get_elem|].
  simpl in Hx. by apply (tado_schema_shape x).
Qed.

(** ** What [setup] does *)

Section SetupSpec.
Context {Cloud : Type} `{TadoClient Cloud}.

(** C8: the behaviour of [setup] on every answer of the client.  With
    good credentials it records the two client calls, stores a fresh
    empty store under ["tado_data"], asks for the ["sensor"] and
    ["climate"] platforms in this order, and returns [True].  When the
    client raises [RuntimeError] or [HTTPError] it logs one error and
    returns [False], with nothing stored and no platform loaded.  Any
    other exception escapes [setup], also with nothing stored. *)
Theorem setup_spec config (h : Hass Cloud) conf u p :
  py_getitem config DOMAIN = Ok conf -> py_getitem conf CONF_USERNAME = Ok u ->
  py_getitem conf CONF_PASSWORD = Ok p ->
  let e := h_env h in
  setup config h =
    match Tado_login (cloud e) u p with
    | Ok _ =>
        (MkHass (MkEnv (cloud e) (now e) (calls e ++ [CallTado u p; CallSetDebugging true]) (log e))
                (<[DATA_TADO := TadoDataStore_init]> (h_data h))
                (h_platforms h ++ [("sensor", DOMAIN); ("climate", DOMAIN)]),
         Ok true)
    | Raise ex =>
        if is_RuntimeError_or_HTTPError ex then
          (MkHass (MkEnv (cloud e) (now e) (calls e ++ [CallTado u p])
                         (log e ++ [LogRecord ERROR
                            "Unable to connect to mytado with username and password" []]))
                  (h_data h) (h_platforms h),
           Ok false)
        else
          (MkHass (MkEnv (cloud e) (now e) (calls e ++ [CallTado u p]) (log e))
                  (h_data h) (h_platforms h),
           Raise ex)
    end.
Proof.
  intros Hc Hu Hp. unfold setup, lift, bind at 1. rewrite Hc. simpl.
  unfold bind at 1. rewrite Hu. simpl. unfold bind at 1. rewrite Hp. simpl.
  unfold py_try, bind, call_Tado, call_setDebugging. rewrite !client_read_run. simpl.
  destruct (Tado_login _ u p) as [[]|ex]; simpl.
  - unfold ret. by rewrite <- !app_assoc.
  - destruct (is_RuntimeError_or_HTTPError ex); reflexivity.
Qed.
End SetupSpec.

(** ** Witnesses on a mock cloud *)

Module SetupWitnesses.
Import MockCloud.

Definition raw_config : pyval :=
  PDict [("http", PDict []);
         ("tado", PDict [("username", PStr "user"); ("password", PStr "secret")])].

Definition validated : pyval :=
  match CONFIG_SCHEMA raw_config with Ok c => c | Raise _ => PNone end.

Definition hass0 : Hass mock :=
  MkHass (MkEnv (Mock ("user", "secret") [(1%Z, PStr "21.5C")] [] false) 0%Z [] []) ∅ [].

Lemma config_schema_credentials_witness :
  exists conf u p, py_getitem validated DOMAIN = Ok conf /\
    py_getitem conf CONF_USERNAME = Ok (PStr u) /\ py_getitem conf CONF_PASSWORD = Ok (PStr p).
Proof.
  apply (config_schema_credentials raw_config validated).
  - vm_compute. reflexivity.
  - eexists. vm_compute. reflexivity.
Defined.

Lemma setup_spec_witness :
  snd (setup validated hass0) = Ok true /\
  h_platforms (fst (setup validated hass0)) = [("sensor", DOMAIN); ("climate", DOMAIN)].
Proof.
  rewrite (setup_spec validated hass0
             (PDict [("username", PStr "user"); ("password", PStr "secret")])
             (PStr "user") (PStr "secret")).
  - vm_compute. split; reflexivity.
  - vm_compute. reflexivity.
  - vm_compute. reflexivity.
  - vm_compute. reflexivity.
Defined.
Lemma config_schema_tado_shape_witness :
  exists d, PDict [("username", PStr "user"); ("password", PStr "secret")] = PDict d /\ tado_section_wf d.
Proof.
  apply (config_schema_tado_shape raw_config validated).
  - vm_compute. reflexivity.
  - vm_compute. reflexivity.
Defined.

Lemma config_schema_rejects_extra_tado_key_witness :
  CONFIG_SCHEMA (PDict [("http", PDict []);
                        ("tado", PDict [("username", PStr "me"); ("password", PStr "pw");
                                        ("scan_interval", PInt 30)])]) = Raise Invalid.
Proof.
  apply (config_schema_rejects_extra_tado_key _
           [("username", PStr "me"); ("password", PStr "pw"); ("scan_interval", PInt 30)]
           "scan_interval" (PInt 30)).
  - right. left.
  - right. right. left.
  - discriminate.
  - discriminate.
Defined.
End SetupWitnesses.
