(* ===== verification/Polling.v ===== *)
(** * [update] over time: forcing and polling

    The platforms call [update()] at each of their polls, and the write
    wrappers call [update(no_throttle=True)] (src lines 66-67, 125, 140,
    145).  This file compares the two calls, shows where the throttle
    window ends, and how a write and a later poll are ordered. *)

From S2P Require Import Prelude Throttle TadoApi DataStore.
From Stdlib Require Import ZArith Lia.
Local Open Scope Z_scope.

Section Claims.
Context {Cloud : Type} `{TadoClient Cloud}.
Implicit Types (w : World Cloud).

(** C18: forcing a due refresh changes nothing.  When an unforced
    [update()] would run, [update(no_throttle=True)] has exactly the same
    effect and result: the keyword only matters inside the throttle
    window. *)
Theorem update_forced_equiv_due w :
  update_due false w = true -> update true w = update false w.
Proof.
  intros Hd. unfold update. rewrite !(throttle_unfold get_last set_last utcnow).
  unfold update_due in Hd. by rewrite Hd.
Qed.

(** C24: the throttle window is closed at exactly 10 s.  An unforced
    [update] at most [MIN_TIME_BETWEEN_UPDATES] after the last recorded
    refresh does nothing; strictly later it runs as a forced one would
    ([Throttle] compares with [>]). *)
Theorem update_throttle_boundary w t :
  throttle_last (w_store w) = Some t ->
  (now (w_env w) - t <= MIN_TIME_BETWEEN_UPDATES -> update false w = (w, Ok None)) /\
  (MIN_TIME_BETWEEN_UPDATES < now (w_env w) - t -> update false w = update true w).
Proof.
  intros Hl. split; [by apply update_not_due|]. intros Hlt.
  unfold update. rewrite !(throttle_unfold get_last set_last utcnow).
  unfold throttle_due, get_last, utcnow. rewrite Hl. simpl.
  by rewrite (proj2 (Z.ltb_lt _ _) Hlt).
Qed.

(** C25: a write followed by a poll.  When [set_zone_overlay] succeeds
    and its forced refresh completes, an unforced [update] within
    [MIN_TIME_BETWEEN_UPDATES] of the write, whatever happened to the
    clock, the cloud, the trace or the log in between, sends nothing: the
    forced refresh armed the throttle. *)
Theorem write_then_poll_throttled w zone_id overlay_mode temperature duration device_type mode c' w2 :
  setZoneOverlay (cloud (w_env w)) zone_id overlay_mode temperature duration device_type
    (PStr "ON") mode = Ok c' ->
  snd (refresh c' (sensors (w_store w)) (data (w_store w))) = Ok tt ->
  w_store w2 = w_store (fst (set_zone_overlay zone_id overlay_mode temperature duration
                                device_type mode w)) ->
  now (w_env w2) - now (w_env w) <= MIN_TIME_BETWEEN_UPDATES ->
  update false w2 = (w2, Ok None).
Proof.
  intros Hc Hr Hw2 Ht.
  pose proof (write_then_update_run
    (CallSetZoneOverlay zone_id overlay_mode temperature duration device_type (PStr "ON") mode)
    (fun c => setZoneOverlay c zone_id overlay_mode temperature
                                                  duration device_type (PStr "ON") mode) w) as Hp.
  unfold write_post in Hp. rewrite Hc in Hp. destruct Hp as (_ & _ & _ & Hst & _).
  apply (update_not_due w2 (now (w_env w))); [|done].
  rewrite Hw2. unfold set_zone_overlay, call_setZoneOverlay. rewrite Hst. simpl. by rewrite Hr.
Qed.

End Claims.

Module PollingWitnesses.
Import MockCloud Witnesses.

Lemma update_forced_equiv_due_witness : update true w_reg = update false w_reg.
Proof. apply update_forced_equiv_due. vm_compute. reflexivity. Defined.

Lemma update_throttle_boundary_witness :
  let w1 := fst (update false w_reg) in
  update false (set_now w1 (1000 + MIN_TIME_BETWEEN_UPDATES)) =
    (set_now w1 (1000 + MIN_TIME_BETWEEN_UPDATES), Ok None).
Proof.
  intros w1. apply (update_throttle_boundary (set_now w1 (1000 + MIN_TIME_BETWEEN_UPDATES)) 1000).
  - vm_compute. reflexivity.
  - vm_compute. discriminate.
Defined.

Lemma write_then_poll_throttled_witness :
  let w1 := fst (set_zone_overlay (PInt 1) (PStr "MANUAL") (PInt 22) PNone (PStr "HEATING") PNone w_reg) in
  update false (set_now w1 (1000 + 5000000)) = (set_now w1 (1000 + 5000000), Ok None).
Proof.
  intros w1.
  apply (write_then_poll_throttled w_reg (PInt 1) (PStr "MANUAL") (PInt 22) PNone (PStr "HEATING") PNone
           (with_zones cloud0 (zone_set (zones cloud0) 1 (PDict [("overlay", PDict [("type", PStr "MANUAL");
              ("power", PStr "ON"); ("temperature", PInt 22)])])))).
  - vm_compute. reflexivity.
  - vm_compute. reflexivity.
  - reflexivity.
  - vm_compute. discriminate.
Defined.

End PollingWitnesses.
