(* ===== verification/Trace.v ===== *)
(** * What an update sends to the cloud and writes to the log

    [TadoApi] records every client call in the trace [calls] and every
    [_LOGGER] record in [log].  This file computes both traces of one
    turn of the refresh loop (src lines 70-94) from the descriptor and the
    cloud, [entry_calls] and [entry_log], and of the whole loop,
    [refresh_trace], and proves that [update], the write wrappers and the
    loop produce exactly these traces.  The judgement [traced proj m tr]
    says that [m] appends [tr] of the current cloud to the trace [proj]
    of the environment; it composes along [bind] and [py_try] as
    [pure_as] of [DataStore] does. *)

From S2P Require Import Prelude Throttle TadoApi DataStore.
From Stdlib Require Import ZArith Lia.

Section Judgement.
Context {Cloud : Type} `{TadoClient Cloud}.
Implicit Types (w : World Cloud).

(** [m] keeps the cloud and its outcome is [f] of the cloud. *)
Inductive outcome_as {A} (m : PyM (World Cloud) A) (f : Cloud -> outcome A) : Prop :=
| OutcomeAs : (forall w, cloud (w_env (fst (m w))) = cloud (w_env w) /\
                         snd (m w) = f (cloud (w_env w))) -> outcome_as m f.

Lemma pure_as_outcome {A} (m : PyM (World Cloud) A) f : pure_as m f -> outcome_as m f.
Proof. intros Hm. constructor. intros w. destruct (pure_as_run m f w Hm) as [(_ & ? & _) ?]. done. Qed.

Lemma update_entry_outcome data_id s :
  outcome_as (update_entry data_id s)
    (fun c => match entry_value c s with Ok _ => Ok tt | Raise e => Raise e end).
Proof. constructor. intros w. destruct (update_entry_run data_id s w) as [(_ & ? & _) ?]. done. Qed.

Context {X : Type} (proj : Env Cloud -> list X).

(** [m] appends [tr] of the current cloud to the trace [proj]. *)
Inductive traced {A} (m : PyM (World Cloud) A) (tr : Cloud -> list X) : Prop :=
| Traced : (forall w, proj (w_env (fst (m w))) = proj (w_env w) ++ tr (cloud (w_env w))) ->
           traced m tr.

Lemma traced_run {A} (m : PyM (World Cloud) A) tr w :
  traced m tr -> proj (w_env (fst (m w))) = proj (w_env w) ++ tr (cloud (w_env w)).
Proof. intros [Hm]. apply Hm. Qed.

Lemma traced_ret {A} (a : A) : traced (ret a) (fun _ => []).
Proof. constructor. intros w. by rewrite app_nil_r. Qed.

Lemma traced_lift {A} (o : outcome A) : traced (lift o) (fun _ => []).
Proof. constructor. intros w. by rewrite app_nil_r. Qed.

Lemma traced_store_modify g : traced (store_modify g) (fun _ => []).
Proof. constructor. intros w. by rewrite app_nil_r. Qed.

Lemma traced_ext {A} (m : PyM (World Cloud) A) t t' :
  (forall c, t c = t' c) -> traced m t -> traced m t'.
Proof. intros Ht [Hm]. constructor. intros w. by rewrite <- Ht. Qed.

Lemma traced_if {A} (b : bool) (m1 m2 : PyM (World Cloud) A) t1 t2 :
  traced m1 t1 -> traced m2 t2 -> traced (if b then m1 else m2) (if b then t1 else t2).
Proof. by destruct b. Qed.

Lemma traced_bind {A B} (m : PyM (World Cloud) A) (k : A -> PyM (World Cloud) B) f t tk :
  outcome_as m f -> traced m t -> (forall a, traced (k a) (tk a)) ->
  traced (bind m k) (fun c => t c ++ match f c with Ok a => tk a c | Raise _ => [] end).
Proof.
  intros [Hf] [Ht] Hk. constructor. intros w. unfold bind.
  destruct (Hf w) as [Hc Ho]. pose proof (Ht w) as Htw.
  destruct (m w) as [w1 o1]; simpl in *; subst o1.
  destruct (f _) as [a|e]; simpl; [|by rewrite Htw, app_nil_r].
  by rewrite (traced_run _ _ w1 (Hk a)), Htw, Hc, app_assoc.
Qed.

Lemma traced_try {A B} (body : PyM (World Cloud) A) matches (h : PyM (World Cloud) B) k f t th tk :
  outcome_as body f -> traced body t -> traced h th -> (forall a, traced (k a) (tk a)) ->
  traced (py_try body matches h k)
    (fun c => t c ++ match f c with
                     | Ok a => tk a c
                     | Raise e => if matches e then th c else []
                     end).
Proof.
  intros [Hf] [Ht] [Hh] Hk. constructor. intros w. unfold py_try.
  destruct (Hf w) as [Hc Ho]. pose proof (Ht w) as Htw.
  destruct (body w) as [w1 o1]; simpl in *; subst o1.
  destruct (f _) as [a|e]; simpl.
  - by rewrite (traced_run _ _ w1 (Hk a)), Htw, Hc, app_assoc.
  - destruct (matches e); simpl; [|by rewrite Htw, app_nil_r].
    by rewrite Hh, Htw, Hc, app_assoc.
Qed.
End Judgement.

(** The two traces of the environment: the client calls and the log. *)
Section Primitives.
Context {Cloud : Type} `{TadoClient Cloud}.

Lemma calls_client_read {A} c (f : Cloud -> outcome A) :
  traced (Cloud := Cloud) calls (client_read c f) (fun _ => [c]).
Proof. constructor. intros w. by rewrite client_read_run. Qed.

Lemma log_client_read {A} c (f : Cloud -> outcome A) :
  traced (Cloud := Cloud) log (client_read c f) (fun _ => []).
Proof. constructor. intros w. rewrite client_read_run. simpl. by rewrite app_nil_r. Qed.

Lemma calls_log_at lvl msg args :
  traced (Cloud := Cloud) calls (log_at lvl msg args) (fun _ => []).
Proof. constructor. intros w. simpl. by rewrite app_nil_r. Qed.

Lemma log_log_at lvl msg args :
  traced (Cloud := Cloud) log (log_at lvl msg args) (fun _ => [LogRecord lvl msg args]).
Proof. by constructor. Qed.
End Primitives.

Ltac traced_build :=
  unfold call_getState, call_getDevices, log_debug, log_error;
  repeat match goal with
    | |- traced _ (client_read _ _) _ => first [apply calls_client_read | apply log_client_read]
    | |- traced _ (log_at _ _ _) _ => first [apply calls_log_at | apply log_log_at]
    | |- traced _ (lift _) _ => apply traced_lift
    | |- traced _ (ret _) _ => apply traced_ret
    | |- traced _ (bind _ _) _ =>
        eapply traced_bind; [apply pure_as_outcome; pure_as_build | | intros ?]
    | |- traced _ (if _ then _ else _) _ => apply traced_if
    end.

(** ** The traces of one turn and of the loop *)

Section EntryTrace.
Context {Cloud : Type} `{TadoClient Cloud}.

(** The trace of one turn from the traces of its three parts: the zone
    query [tz], the device query [td] and the handler [te].  The device
    part runs only when the zone part returned; the handler runs when a
    part raised [RuntimeError]. *)
Definition entry_trace {X} (tz td te : list X) (c : Cloud) (s : sensor) : list X :=
  (if dict_mem s "zone" then tz else []) ++
  match zone_value c s with
  | Ok d1 => (if dict_mem s "device" then td else []) ++
             match device_value c s d1 with
             | Ok _ => []
             | Raise e => if is_RuntimeError e then te else []
             end
  | Raise e => if is_RuntimeError e then te else []
  end.

(** The trace of the loop over [items]: it stops after the turn that
    raises. *)
Fixpoint refresh_trace {X} (et : Cloud -> sensor -> list X) (c : Cloud)
    (items : list (string * sensor)) : list X :=
  match items with
  | [] => []
  | (_, s) :: rest =>
      et c s ++ match entry_value c s with Ok _ => refresh_trace et c rest | Raise _ => [] end
  end.

(** The client calls of one turn: [getState(id)] for a zone entry,
    [getDevices()] for a device entry, each only once the id and the name
    have been read. *)
Definition entry_calls (c : Cloud) (s : sensor) : list api_call :=
  entry_trace (match id_and_name s with Ok id => [CallGetState id] | Raise _ => [] end)
              (match id_and_name s with Ok _ => [CallGetDevices] | Raise _ => [] end)
              [] c s.

(** The debug record of a query, once the id and the name are read. *)
Definition query_log (msg : string) (s : sensor) : list log_record :=
  match dict_getitem s "id", dict_getitem s "name" with
  | Ok id, Ok name => [LogRecord DEBUG msg [id; name]]
  | _, _ => []
  end.

(** The error record of the handler: the id, twice (src line 91). *)
Definition error_log (s : sensor) : list log_record :=
  match dict_getitem s "id" with
  | Ok id => [LogRecord ERROR "Unable to connect to myTado. %s %s" [id; id]]
  | Raise _ => []
  end.

Definition entry_log (c : Cloud) (s : sensor) : list log_record :=
  entry_trace (query_log "Querying mytado.com for zone %s %s" s)
              (query_log "Querying mytado.com for device %s %s" s)
              (error_log s) c s.

Definition refresh_calls := refresh_trace entry_calls.
Definition refresh_log := refresh_trace entry_log.
End EntryTrace.

(** ** The methods produce these traces *)

Section EntryRun.
Context {Cloud : Type} `{TadoClient Cloud}.
Implicit Types (w : World Cloud) (s : sensor).

Ltac trace_cases := intros c; unfold id_and_name; simpl; repeat (case_match; simpl); rewrite ?app_nil_r; done.

Lemma query_zone_calls s :
  traced calls (query_zone (Cloud := Cloud) s)
    (fun _ => match id_and_name s with Ok id => [CallGetState id] | Raise _ => [] end).
Proof. unfold query_zone. eapply traced_ext; [|traced_build]. trace_cases. Qed.

Lemma query_device_calls s :
  traced calls (query_device (Cloud := Cloud) s)
    (fun _ => match id_and_name s with Ok _ => [CallGetDevices] | Raise _ => [] end).
Proof. unfold query_device. eapply traced_ext; [|traced_build]. trace_cases. Qed.

Lemma update_error_calls s (d : pyval) : traced calls (update_error (Cloud := Cloud) s ;;; ret d) (fun _ => []).
Proof. unfold update_error. eapply traced_ext; [|traced_build]. trace_cases. Qed.

Lemma query_zone_log s :
  traced log (query_zone (Cloud := Cloud) s) (fun _ => query_log "Querying mytado.com for zone %s %s" s).
Proof. unfold query_zone, query_log. eapply traced_ext; [|traced_build]. trace_cases. Qed.

Lemma query_device_log s :
  traced log (query_device (Cloud := Cloud) s) (fun _ => query_log "Querying mytado.com for device %s %s" s).
Proof. unfold query_device, query_log. eapply traced_ext; [|traced_build]. trace_cases. Qed.

Lemma update_error_log s (d : pyval) : traced log (update_error (Cloud := Cloud) s ;;; ret d) (fun _ => error_log s).
Proof. unfold update_error, error_log. eapply traced_ext; [|traced_build]. trace_cases. Qed.

(** One turn produces [entry_trace] of the traces of its parts. *)
Lemma entry_traced {X} (proj : Env Cloud -> list X) data_id s tz td te :
  traced proj (query_zone s) (fun _ => tz) -> traced proj (query_device s) (fun _ => td) ->
  (forall d : pyval, traced proj (update_error s ;;; ret d) (fun _ => te)) ->
  traced proj (update_entry data_id s) (fun c => entry_trace tz td te c s).
Proof.
  intros Hz Hd He. unfold update_entry.
  eapply traced_ext; last first.
  { eapply traced_bind; [apply pure_as_outcome, entry_try_pure | |
                         intros d; unfold set_data; apply traced_store_modify].
    eapply traced_try;
      [apply pure_as_outcome, pure_as_if; [apply query_zone_pure | apply pure_as_ret]
      |apply traced_if; [exact Hz | apply traced_ret] | apply He | intros d1].
    eapply traced_try;
      [apply pure_as_outcome, pure_as_if; [apply query_device_pure | apply pure_as_ret]
      |apply traced_if; [exact Hd | apply traced_ret] | apply He | intros d2; apply traced_ret]. }
  intros c. unfold entry_trace, zone_value, device_value.
  destruct (dict_mem s "zone"), (dict_mem s "device"); simpl;
    repeat (case_match; simpl); rewrite ?app_nil_r; done.
Qed.

Lemma update_entry_calls data_id s :
  traced calls (update_entry data_id s) (fun c => entry_calls (Cloud := Cloud) c s).
Proof. apply entry_traced; [apply query_zone_calls | apply query_device_calls | apply update_error_calls]. Qed.

Lemma update_entry_log data_id s :
  traced log (update_entry data_id s) (fun c => entry_log (Cloud := Cloud) c s).
Proof. apply entry_traced; [apply query_zone_log | apply query_device_log | apply update_error_log]. Qed.

Lemma loop_traced {X} (proj : Env Cloud -> list X) et items :
  (forall data_id s, traced proj (update_entry data_id s) (fun c => et c s)) ->
  traced proj (update_loop items) (fun c => refresh_trace et c items).
Proof.
  intros He. induction items as [|[k s] rest IH]; simpl; [apply traced_ret|].
  eapply traced_ext; [|eapply traced_bind; [apply update_entry_outcome | apply He | intros u; exact IH]].
  intros c. simpl. by destruct (entry_value c s).
Qed.

(** [update] appends the trace of the loop when it is due, nothing
    otherwise. *)
Lemma update_traced {X} (proj : Env Cloud -> list X) et nt w :
  (forall data_id s, traced proj (update_entry data_id s) (fun c => et c s)) ->
  proj (w_env (fst (update nt w))) =
    proj (w_env w) ++ (if update_due nt w then refresh_trace et (cloud (w_env w)) (sensors (w_store w))
                       else []).
Proof.
  intros He. unfold update, update_due. rewrite (throttle_unfold get_last set_last utcnow).
  destruct (throttle_due _ _ _ _ _); [|by rewrite app_nil_r].
  pose proof (traced_run proj _ _ w (loop_traced proj et (sensors (w_store w)) He)) as Ht.
  unfold update_body, bind, gets. simpl. by destruct (update_loop _ w) as [w1 [[]|e]].
Qed.
End EntryRun.

Section WriteRun.
Context {Cloud : Type} `{TadoClient Cloud}.
Implicit Types (w : World Cloud).

(** A write of the client followed by [self.update(no_throttle=True)]
    sends the write, then, if it succeeded, the queries of a whole
    refresh against the new cloud. *)
Lemma write_then_update_calls c f w :
  calls (w_env (fst ((client_write c f ;;; update true ;;; ret tt) w))) =
    calls (w_env w) ++ [c] ++
      match f (cloud (w_env w)) with
      | Ok c' => refresh_calls c' (sensors (w_store w))
      | Raise _ => []
      end.
Proof.
  unfold bind at 1. rewrite client_write_run. simpl.
  destruct (f (cloud (w_env w))) as [c'|ex]; simpl; [|done].
  set (w1 := MkWorld _ _).
  pose proof (update_traced calls entry_calls true w1 update_entry_calls) as Hu.
  unfold bind. destruct (update true w1) as [w2 [o|e]]; simpl in *; rewrite Hu; simpl;
    by rewrite <- app_assoc.
Qed.

Lemma entry_calls_length (c : Cloud) s : length (entry_calls c s) <= 2.
Proof. unfold entry_calls, entry_trace. repeat (case_match; simpl); lia. Qed.

Lemma refresh_trace_length {X} (et : Cloud -> sensor -> list X) n c items :
  (forall s, length (et c s) <= n) -> length (refresh_trace et c items) <= n * length items.
Proof.
  intros Hn. induction items as [|[k s] rest IH]; simpl; [lia|].
  rewrite length_app. specialize (Hn s). destruct (entry_value c s); simpl; lia.
Qed.
End WriteRun.

(** ** Claims *)

Section TraceClaims.
Context {Cloud : Type} `{TadoClient Cloud}.
Implicit Types (w : World Cloud).

(** C16: the exact traces of [update].  A due call appends to the client
    trace the queries of [refresh_calls] (one [getState(id)] per zone
    entry, one [getDevices()] per device entry, in the order of the
    registry, up to the turn that raises) and to the log the records of
    [refresh_log]; a call that is not due sends and logs nothing. *)
Theorem update_trace nt w :
  calls (w_env (fst (update nt w))) =
    calls (w_env w) ++ (if update_due nt w then refresh_calls (cloud (w_env w)) (sensors (w_store w))
                        else []) /\
  log (w_env (fst (update nt w))) =
    log (w_env w) ++ (if update_due nt w then refresh_log (cloud (w_env w)) (sensors (w_store w))
                      else []).
Proof. split; apply update_traced; [apply update_entry_calls | apply update_entry_log]. Qed.

(** C17: one [update] sends at most two requests per registered entry,
    whatever the cloud answers. *)
Theorem update_calls_bound nt w :
  length (calls (w_env (fst (update nt w)))) <=
    length (calls (w_env w)) + 2 * length (sensors (w_store w)).
Proof.
  rewrite (update_traced calls entry_calls nt w update_entry_calls), length_app.
  destruct (update_due nt w); simpl; [|lia].
  pose proof (refresh_trace_length entry_calls 2 (cloud (w_env w)) (sensors (w_store w))
                (entry_calls_length (cloud (w_env w)))). lia.
Qed.

(** C19: the error record of a failed query names the id twice.  When
    the first registered entry is a zone entry whose [getState] raises
    [RuntimeError], a due [update] logs the debug record with the id and
    the name, then the error record with the id in both places where the
    message has [%s] (src line 91), then the records of the rest of the
    loop. *)
Theorem update_zone_failure_log nt w k s rest id name :
  update_due nt w = true -> sensors (w_store w) = (k, s) :: rest ->
  dict_get s "id" = Some id -> dict_get s "name" = Some name ->
  dict_mem s "zone" = true -> dict_mem s "device" = false ->
  getState (cloud (w_env w)) id = Raise RuntimeError ->
  log (w_env (fst (update nt w))) =
    log (w_env w) ++
      [LogRecord DEBUG "Querying mytado.com for zone %s %s" [id; name];
       LogRecord ERROR "Unable to connect to myTado. %s %s" [id; id]] ++
      refresh_log (cloud (w_env w)) rest.
Proof.
  intros Hdue Hs Hid Hname Hz Hd Hst.
  rewrite (update_traced log entry_log nt w update_entry_log), Hdue, Hs. simpl.
  unfold entry_log, entry_trace, entry_value, zone_value, id_and_name, handled,
    query_log, error_log, dict_getitem.
  by rewrite Hid, Hname, Hz, Hst.
Qed.

(** C20: the requests of [set_zone_overlay]: the [setZoneOverlay] call
    with power ["ON"], then, if the cloud accepted it, the queries of a
    whole refresh against the new cloud, whatever the throttle says. *)
Theorem set_zone_overlay_calls w zone_id overlay_mode temperature duration device_type mode :
  calls (w_env (fst (set_zone_overlay zone_id overlay_mode temperature duration device_type mode w))) =
    calls (w_env w) ++
      [CallSetZoneOverlay zone_id overlay_mode temperature duration device_type (PStr "ON") mode] ++
      match setZoneOverlay (cloud (w_env w)) zone_id overlay_mode temperature duration device_type
              (PStr "ON") mode with
      | Ok c' => refresh_calls c' (sensors (w_store w))
      | Raise _ => []
      end.
Proof.
  exact (write_then_update_calls _ (fun c => setZoneOverlay c zone_id overlay_mode temperature
                                                duration device_type (PStr "ON") mode) w).
Qed.

(** The turn of a zone entry without a name raises [KeyError('name')]
    before any query. *)
Lemma entry_value_missing_name (c : Cloud) s id :
  dict_mem s "zone" = true -> dict_get s "id" = Some id -> dict_get s "name" = None ->
  entry_value c s = Raise (KeyError (PStr "name")) /\ entry_calls c s = [].
Proof.
  intros Hz Hid Hname.
  unfold entry_calls, entry_trace, entry_value, zone_value, id_and_name, dict_getitem.
  by rewrite Hz, Hid, Hname.
Qed.

(** C28: a descriptor without a name aborts the refresh.  The debug log
    reads [sensor["name"]] inside the [try] (src line 77), and the
    [KeyError] is not the [RuntimeError] the handler catches: when the
    first registered entry is a zone entry without a name, a due [update]
    raises [KeyError('name')], sends no request, refreshes no entry and
    records no time. *)
Theorem update_missing_name_raises nt w k s rest id :
  update_due nt w = true -> sensors (w_store w) = (k, s) :: rest ->
  dict_mem s "zone" = true -> dict_get s "id" = Some id -> dict_get s "name" = None ->
  snd (update nt w) = Raise (KeyError (PStr "name")) /\ w_store (fst (update nt w)) = w_store w /\
  calls (w_env (fst (update nt w))) = calls (w_env w).
Proof.
  intros Hdue Hs Hz Hid Hname.
  destruct (entry_value_missing_name (cloud (w_env w)) s id Hz Hid Hname) as [He Hc].
  pose proof (update_run nt w) as Hu. simpl in Hu. rewrite Hdue in Hu.
  destruct Hu as (Hst & _ & _ & _ & Ho). rewrite Hs in Hst, Ho. simpl in Hst, Ho.
  rewrite He in Hst, Ho. simpl in Hst, Ho. split_and!; [done| |].
  - rewrite Hst, <- Hs. by destruct (w_store w).
  - rewrite (update_traced calls entry_calls nt w update_entry_calls), Hdue, Hs. simpl.
    rewrite Hc, He. simpl. by rewrite app_nil_r.
Qed.
End TraceClaims.

Module TraceWitnesses.
Import MockCloud Witnesses.

Definition w_fail : World mock :=
  fst (run_op (OpAddSensor "zone 1" zone1)
         (fst (run_op (OpAddSensor "zone 3" zone3) w0))).

Lemma update_zone_failure_log_witness :
  log (w_env (fst (update false w_fail))) =
    [LogRecord DEBUG "Querying mytado.com for zone %s %s" [PInt 3; PStr "Attic"];
     LogRecord ERROR "Unable to connect to myTado. %s %s" [PInt 3; PInt 3];
     LogRecord DEBUG "Querying mytado.com for zone %s %s" [PInt 1; PStr "Living"]].
Proof.
  rewrite (update_zone_failure_log false w_fail "zone 3" zone3 [("zone 1", zone1)]
             (PInt 3) (PStr "Attic")); try (vm_compute; reflexivity).
Defined.
Definition w_noname : World mock :=
  fst (run_op (OpAddSensor "zone x" [("id", PInt 1); ("zone", PBool true)]) w0).

Lemma update_missing_name_raises_witness :
  snd (update false w_noname) = Raise (KeyError (PStr "name")) /\
  w_store (fst (update false w_noname)) = w_store w_noname /\
  calls (w_env (fst (update false w_noname))) = calls (w_env w_noname).
Proof.
  apply (update_missing_name_raises false w_noname "zone x" [("id", PInt 1); ("zone", PBool true)] []
           (PInt 1)); vm_compute; reflexivity.
Defined.
End TraceWitnesses.
