(* ===== verification/AbstractStore.v ===== *)
(** * The data store of the spec, and its refinement by [TadoDataStore]

    Section 4.1 of the spec describes the store abstractly: a registry
    id -> descriptor, a cache id -> last value or [None], a rate-limited
    [refresh] that gives every registered entry the reading of its kind
    ([None] when the query failed) and never raises for a single entry,
    [add] that registers an entry with an empty cache value, and [get]
    that reads the cache or returns the error placeholder.  [AbsStore] is
    that state, [abs_step] its transitions, and [abs_of] reads a concrete
    store as an abstract one (the registry dict as a map).

    The refinement theorem says that every call a platform makes on the
    concrete store is one abstract transition or none, as long as the descriptors
    are well formed and the cloud fails only with [RuntimeError] and
    never reports an empty device list; without these conditions the
    concrete loop may raise (see [DataStore.update_empty_device_list_aborts]).
    The abstraction follows the simulation diagrams of small-step
    semantics: one concrete step, one or zero abstract steps. *)

From S2P Require Import Prelude Throttle TadoApi DataStore.
From Stdlib Require Import ZArith.

Record AbsStore : Type := MkAbs {
  a_reg : gmap string sensor;
  a_cache : gmap string pyval;
  a_last : option Z
}.

Definition abs_add (k : string) (s : sensor) (a : AbsStore) : AbsStore :=
  MkAbs (<[k := s]> (a_reg a)) (<[k := PNone]> (a_cache a)) (a_last a).

Definition abs_get (a : AbsStore) (k : string) : pyval :=
  match a_cache a !! k with Some v => v | None => PDict [("error", PStr "no data")] end.

(** The concrete store seen abstractly. *)
Definition abs_of (st : TadoDataStore) : AbsStore :=
  MkAbs (list_to_map (sensors st)) (data st) (throttle_last st).

(** Every registered descriptor has an id and a name. *)
Definition registry_wf (st : TadoDataStore) : Prop :=
  forall k s, dict_get (sensors st) k = Some s -> sensor_wf s.

Section Abstract.
Context {Cloud : Type} `{TadoClient Cloud}.

(** A refresh at time [t] against the cloud [c]. *)
Definition abs_refresh (c : Cloud) (t : Z) (a : AbsStore) : AbsStore :=
  MkAbs (a_reg a) (reading c <$> a_reg a) (Some t).

(** The transitions of the spec's store, for a call at time [t] whose
    refresh, if any, reads the cloud [c]. *)
Inductive abs_step (c : Cloud) (t : Z) : AbsStore -> AbsStore -> Prop :=
| AbsAdd k s a : abs_step c t a (abs_add k s a)
| AbsRefresh a : abs_step c t a (abs_refresh c t a)
| AbsIdle a : abs_step c t a a.
End Abstract.

(** ** The abstraction commutes with the operations *)

Lemma list_to_map_dict_set (d : pydict sensor) k s :
  list_to_map (dict_set d k s) = (<[k := s]> (list_to_map d) : gmap string sensor).
Proof.
  induction d as [|[k' s'] d IH]; simpl; [done|].
  destruct (String.eqb_spec k k') as [->|Hne]; simpl.
  - by rewrite insert_insert_eq.
  - rewrite IH. by apply insert_insert_ne.
Qed.

Lemma abs_of_add_sensor st k s :
  abs_of (MkStore (dict_set (sensors st) k s) (<[k := PNone]> (data st)) (throttle_last st)) =
  abs_add k s (abs_of st).
Proof. unfold abs_of, abs_add. simpl. by rewrite list_to_map_dict_set. Qed.

Section Refresh.
Context {Cloud : Type} `{TadoClient Cloud}.

(** A refresh that gives every entry its reading computes, on a store
    that satisfies the invariant, the readings of the registry. *)
Lemma refresh_readings c st :
  store_inv st -> registry_wf st -> client_sound c ->
  snd (refresh c (sensors st) (data st)) = Ok tt /\
  fst (refresh c (sensors st) (data st)) = reading c <$> (list_to_map (sensors st) : gmap string sensor).
Proof.
  intros [Hnd Hdom] Hwf Hc.
  destruct (refresh_all_ok c (sensors st) (data st) (reading c) Hnd) as [Ho Hl].
  { intros k s Hin. apply entry_value_reading; [|done]. apply (Hwf k). by apply dict_elem_get. }
  split; [done|]. apply map_eq. intros k. rewrite lookup_fmap.
  destruct (list_to_map (sensors st) !! k) as [s|] eqn:Hk; simpl.
  - apply (Hl k s). by apply elem_of_list_to_map in Hk.
  - apply not_elem_of_list_to_map in Hk. rewrite refresh_notin by done.
    destruct (data st !! k) eqn:Hd; [|done].
    exfalso. apply Hk. apply Hdom. by eexists.
Qed.

Lemma abs_of_refreshed c st t :
  store_inv st -> registry_wf st -> client_sound c ->
  abs_of (MkStore (sensors st) (fst (refresh c (sensors st) (data st)))
            (match snd (refresh c (sensors st) (data st)) with
             | Ok _ => Some t | Raise _ => throttle_last st end)) =
  abs_refresh c t (abs_of st).
Proof.
  intros Hinv Hwf Hc. destruct (refresh_readings c st Hinv Hwf Hc) as [-> ->]. done.
Qed.
End Refresh.

(** ** One call of a platform is one abstract transition *)

Section Simulation.
Context {Cloud : Type} `{TadoClient Cloud}.
Implicit Types (w : World Cloud).

Lemma write_refines c f w :
  world_inv w -> registry_wf (w_store w) ->
  let r := (client_write c f ;;; update true ;;; ret tt) w in
  client_sound (cloud (w_env (fst r))) ->
  abs_step (cloud (w_env (fst r))) (now (w_env w)) (abs_of (w_store w)) (abs_of (w_store (fst r))).
Proof.
  intros [Hinv _] Hwf r. pose proof (write_then_update_run c f w) as Hp. fold r in Hp.
  unfold write_post in Hp. destruct (f (cloud (w_env w))) as [c'|ex].
  - destruct Hp as (Hcl & _ & _ & Hst & _). rewrite Hcl, Hst. intros Hc.
    rewrite (abs_of_refreshed c' (w_store w) _ Hinv Hwf Hc). apply AbsRefresh.
  - destruct Hp as (_ & _ & _ & Hst & _). rewrite Hst. intros _. apply AbsIdle.
Qed.

Lemma read_refines {A} c (g : Cloud -> outcome A) w :
  abs_step (cloud (w_env (fst (client_read c g w)))) (now (w_env w))
    (abs_of (w_store w)) (abs_of (w_store (fst (client_read c g w)))).
Proof. rewrite client_read_run. apply AbsIdle. Qed.

(** The simulation diagram for one call: one abstract step or none. *)
Lemma run_op_refines o w :
  world_inv w -> registry_wf (w_store w) ->
  client_sound (cloud (w_env (fst (run_op o w)))) ->
  abs_step (cloud (w_env (fst (run_op o w)))) (now (w_env w))
    (abs_of (w_store w)) (abs_of (w_store (fst (run_op o w)))).
Proof.
  intros Hw Hwf. destruct o; simpl; rewrite ?fst_bind_ret.
  - intros _. rewrite abs_of_add_sensor. apply AbsAdd.
  - pose proof (update_run no_throttle w) as Hu. simpl in Hu.
    destruct (update_due no_throttle w).
    + destruct Hu as (Hst & Hcl & _). rewrite Hst, Hcl. intros Hc.
      rewrite (abs_of_refreshed _ (w_store w) _ (proj1 Hw) Hwf Hc). apply AbsRefresh.
    + rewrite Hu. intros _. apply AbsIdle.
  - intros _. apply read_refines.
  - intros _. apply read_refines.
  - intros _. apply read_refines.
  - by apply write_refines.
  - by apply write_refines.
  - by apply write_refines.
Qed.
End Simulation.

(** ** Claims *)

Section Claims.
Context {Cloud : Type} `{TadoClient Cloud}.
Implicit Types (w : World Cloud).

(** C27: [TadoDataStore] refines the store of the spec.  On a store
    that satisfies the invariant with well-formed descriptors, every call
    of a platform ([add_sensor], [update] forced or not, a read wrapper,
    a write wrapper, whatever the client answers) is one transition of
    the abstract store (an [add], a [refresh] against the cloud the call
    leaves, or nothing) when that cloud fails only with [RuntimeError] and
    reports devices; and [get_data] reads the abstract cache. *)
Theorem store_op_refines o w :
  world_inv w -> registry_wf (w_store w) ->
  client_sound (cloud (w_env (fst (run_op o w)))) ->
  abs_step (cloud (w_env (fst (run_op o w)))) (now (w_env w))
    (abs_of (w_store w)) (abs_of (w_store (fst (run_op o w)))) /\
  forall k, get_data (w_store (fst (run_op o w))) k = abs_get (abs_of (w_store (fst (run_op o w)))) k.
Proof. intros Hw Hwf Hc. split; [apply (run_op_refines o w Hw Hwf Hc)|done]. Qed.

End Claims.

Module AbstractWitnesses.
Import MockCloud Witnesses.

Lemma cloud_after_update : cloud (w_env (fst (run_op (OpUpdate false) w_reg))) = cloud0.
Proof. vm_compute. reflexivity. Qed.

Lemma store_op_refines_witness :
  abs_step (cloud (w_env (fst (run_op (OpUpdate false) w_reg)))) 1000
    (abs_of (w_store w_reg)) (abs_of (w_store (fst (run_op (OpUpdate false) w_reg)))) /\
  forall k, get_data (w_store (fst (run_op (OpUpdate false) w_reg))) k =
            abs_get (abs_of (w_store (fst (run_op (OpUpdate false) w_reg)))) k.
Proof.
  apply (store_op_refines (OpUpdate false) w_reg).
  - apply w_reg_inv.
  - exact w_reg_wf.
  - rewrite cloud_after_update. apply cloud0_sound.
Defined.

End AbstractWitnesses.
