(* ===== verification/Host.v ===== *)
(** * The integration inside the host

    The host validates the configuration with [CONFIG_SCHEMA], calls
    [setup] once, and, when [setup] stored the store under
    [hass.data[DATA_TADO]] and loaded the platforms, the sensor and
    climate platforms call the methods of that store (src lines 48-51;
    the platforms themselves are outside this module).  [with_store]
    runs a method of [DataStore] on the object stored in [hass.data]: the
    object is mutated in place, so the store after the method replaces it
    under the same key; the lookup raises [KeyError] when nothing is
    stored.  [hass_step] is one step of the host: a setup, a call of a
    loaded platform, the clock moving forward, the cloud changing by
    itself.  The invariant [hass_inv] holds in every reachable state:
    the stored store satisfies [world_inv], and the platforms are loaded
    exactly when the store is there, so their calls never miss it. *)

From S2P Require Import Prelude Throttle TadoApi DataStore Setup.
From Stdlib Require Import ZArith Lia.
Local Open Scope Z_scope.

Section Glue.
Context {Cloud : Type} `{TadoClient Cloud}.

(** [hass.data[DATA_TADO]] *)
Definition hass_store : PyM (Hass Cloud) TadoDataStore :=
  let* d := gets h_data in
  match d !! DATA_TADO with
  | Some st => ret st
  | None => raise (KeyError (PStr DATA_TADO))
  end.

(** [hass.data[DATA_TADO].method(...)]: the method runs on the stored
    object with the environment of the host. *)
Definition with_store {A} (m : PyM (World Cloud) A) : PyM (Hass Cloud) A :=
  let* st := hass_store in
  fun h => let r := m (MkWorld (h_env h) st) in
           (MkHass (w_env (fst r)) (<[DATA_TADO := w_store (fst r)]> (h_data h)) (h_platforms h),
            snd r).

Definition hass_init (e : Env Cloud) : Hass Cloud := MkHass e ∅ [].

(** One step of the host.  [setup] runs on a configuration that
    [CONFIG_SCHEMA] accepted, while the integration is not set up; a
    platform calls the store only once it is loaded. *)
Inductive hass_step : Hass Cloud -> Hass Cloud -> Prop :=
| HassSetup raw config h :
    CONFIG_SCHEMA raw = Ok config -> h_data h !! DATA_TADO = None ->
    hass_step h (fst (setup config h))
| HassPlatform o h :
    h_platforms h <> [] -> hass_step h (fst (with_store (run_op o) h))
| HassTick h t :
    now (h_env h) <= t ->
    hass_step h (MkHass (MkEnv (cloud (h_env h)) t (calls (h_env h)) (log (h_env h)))
                        (h_data h) (h_platforms h))
| HassCloud h c :
    hass_step h (MkHass (MkEnv c (now (h_env h)) (calls (h_env h)) (log (h_env h)))
                        (h_data h) (h_platforms h)).

Definition hass_inv (h : Hass Cloud) : Prop :=
  (forall st, h_data h !! DATA_TADO = Some st -> world_inv (MkWorld (h_env h) st)) /\
  ((h_platforms h = [] /\ h_data h !! DATA_TADO = None) \/
   (h_platforms h = [("sensor", DOMAIN); ("climate", DOMAIN)] /\ is_Some (h_data h !! DATA_TADO))).
End Glue.

Section GlueFacts.
Context {Cloud : Type} `{TadoClient Cloud}.
Implicit Types (h : Hass Cloud).

Lemma with_store_run {A} (m : PyM (World Cloud) A) h st :
  h_data h !! DATA_TADO = Some st ->
  with_store m h =
    (MkHass (w_env (fst (m (MkWorld (h_env h) st))))
            (<[DATA_TADO := w_store (fst (m (MkWorld (h_env h) st)))]> (h_data h)) (h_platforms h),
     snd (m (MkWorld (h_env h) st))).
Proof. intros Hs. unfold with_store, hass_store, bind, gets. simpl. by rewrite Hs. Qed.

(** What [setup] may change: it keeps the clock, and either stores a
    fresh store and loads the two platforms, or neither. *)
Lemma setup_effect config h :
  now (h_env (fst (setup config h))) = now (h_env h) /\
  ((h_data (fst (setup config h)) = h_data h /\ h_platforms (fst (setup config h)) = h_platforms h) \/
   (h_data (fst (setup config h)) = <[DATA_TADO := TadoDataStore_init]> (h_data h) /\
    h_platforms (fst (setup config h)) = h_platforms h ++ [("sensor", DOMAIN); ("climate", DOMAIN)])).
Proof.
  unfold setup, bind, lift, py_try. simpl.
  destruct (py_getitem config DOMAIN) as [conf|e]; simpl; [|auto].
  destruct (py_getitem conf CONF_USERNAME) as [u|e]; simpl; [|auto].
  destruct (py_getitem conf CONF_PASSWORD) as [p|e]; simpl; [|auto].
  unfold call_Tado, call_setDebugging. rewrite !client_read_run. simpl.
  destruct (Tado_login _ u p) as [[]|err]; simpl.
  { split; [done|]. right. split; [done|]. by rewrite <- app_assoc. }
  destruct (is_RuntimeError_or_HTTPError err); simpl; auto.
Qed.

Lemma world_inv_init (e : Env Cloud) : world_inv (MkWorld e TadoDataStore_init).
Proof. split; [apply store_inv_init|done]. Qed.

Lemma hass_inv_step h h' : hass_step h h' -> hass_inv h -> hass_inv h'.
Proof.
  destruct 1 as [raw config h Hraw Hnone|o h Hpl|h t Ht|h c]; intros [Hw Hp].
  - destruct (setup_effect config h) as [Hn [[Hd Hl]|[Hd Hl]]]; split; rewrite ?Hd, ?Hl.
    + by rewrite Hnone.
    + done.
    + rewrite lookup_insert_eq. intros st [= <-]. split; [apply store_inv_init|done].
    + right. destruct Hp as [[-> _]|[_ [? Hs]]]; [|congruence].
      split; [done|]. rewrite lookup_insert_eq. by eexists.
  - destruct Hp as [[? _]|[Hpl' [st Hst]]]; [done|].
    rewrite (with_store_run _ h st Hst). cbn [fst h_data h_env h_platforms]. split.
    + unfold h_data, h_env, h_platforms. rewrite lookup_insert_eq. intros st' [= <-].
      pose proof (world_inv_run_op o (MkWorld (h_env h) st) (Hw st Hst)) as Hinv.
      by destruct (fst (run_op o _)).
    + right. split; [done|]. unfold h_data. rewrite lookup_insert_eq. by eexists.
  - split; [|done]. intros st Hst. destruct (Hw st Hst) as [Hinv Hclk].
    split; [done|]. unfold clock_inv in *. simpl in *. destruct (throttle_last st); lia.
  - split; [|done]. intros st Hst. apply (Hw st Hst).
Qed.

Lemma hass_inv_reachable e h : rtc hass_step (hass_init e) h -> hass_inv h.
Proof.
  intros Hr. remember (hass_init e) as h0 eqn:Hh0.
  assert (H0 : hass_inv h0) by (subst; split; [done|left; done]).
  clear Hh0. induction Hr as [|x y z Hxy _ IH]; [done|].
  apply IH. by eapply hass_inv_step.
Qed.
End GlueFacts.

Section HostRuns.
Context {Cloud : Type} `{TadoClient Cloud}.
Implicit Types (h : Hass Cloud).

(** A successful [setup] stores a fresh store and keeps the cloud. *)
Lemma setup_success config h conf u p :
  py_getitem config DOMAIN = Ok conf -> py_getitem conf CONF_USERNAME = Ok u ->
  py_getitem conf CONF_PASSWORD = Ok p -> Tado_login (cloud (h_env h)) u p = Ok tt ->
  h_data (fst (setup config h)) = <[DATA_TADO := TadoDataStore_init]> (h_data h) /\
  cloud (h_env (fst (setup config h))) = cloud (h_env h) /\ snd (setup config h) = Ok true.
Proof.
  intros Hc Hu Hp Hl. unfold setup, bind, lift, py_try. simpl.
  rewrite Hc. simpl. rewrite Hu. simpl. rewrite Hp. simpl.
  unfold call_Tado, call_setDebugging. rewrite !client_read_run. simpl. by rewrite Hl.
Qed.

(** The value of a zone entry with an id and a name and no device key. *)
Lemma entry_value_zone (c : Cloud) s id name v :
  dict_get s "id" = Some id -> dict_get s "name" = Some name ->
  dict_mem s "zone" = true -> dict_mem s "device" = false ->
  getState c id = Ok v -> entry_value c s = Ok v.
Proof.
  intros Hid Hname Hz Hd Hv. unfold entry_value, zone_value, device_value, id_and_name, dict_getitem.
  by rewrite Hid, Hname, Hz, Hd, Hv.
Qed.
End HostRuns.

(** ** Claims *)

Section HostClaims.
Context {Cloud : Type} `{TadoClient Cloud}.
Implicit Types (h : Hass Cloud).

(** C21: in every state the host reaches from an empty [hass.data], the
    store under ["tado_data"] keeps the invariant of [DataStore] with the
    host's clock, and the platforms are loaded (["sensor"] then
    ["climate"]) exactly when the store is there. *)
Theorem reachable_hass_inv e h : rtc hass_step (hass_init e) h -> hass_inv h.
Proof. apply hass_inv_reachable. Qed.

(** C22: the components together.  With valid credentials, [setup]
    succeeds; a platform then registers a zone entry under [k] and polls
    [update()]: the store in [hass.data] then serves, for [k], the state
    the cloud reports for the zone. *)
Theorem setup_register_poll_get config h conf u p k s id name v :
  py_getitem config DOMAIN = Ok conf -> py_getitem conf CONF_USERNAME = Ok u ->
  py_getitem conf CONF_PASSWORD = Ok p -> Tado_login (cloud (h_env h)) u p = Ok tt ->
  dict_get s "id" = Some id -> dict_get s "name" = Some name ->
  dict_mem s "zone" = true -> dict_mem s "device" = false ->
  getState (cloud (h_env h)) id = Ok v ->
  let h1 := fst (setup config h) in
  let h2 := fst (with_store (add_sensor k s) h1) in
  let h3 := fst (with_store (update false) h2) in
  exists st, h_data h3 !! DATA_TADO = Some st /\ get_data st k = v.
Proof.
  intros Hc Hu Hp Hl Hid Hname Hz Hd Hv h1 h2 h3.
  destruct (setup_success config h conf u p Hc Hu Hp Hl) as (Hd1 & Hc1 & _).
  assert (Hs1 : h_data h1 !! DATA_TADO = Some TadoDataStore_init)
    by (unfold h1; rewrite Hd1; apply lookup_insert_eq).
  set (st2 := MkStore [(k, s)] (<[k := PNone]> ∅) None).
  assert (Hs2 : h_data h2 !! DATA_TADO = Some st2)
    by (unfold h2; rewrite (with_store_run _ h1 _ Hs1); unfold h_data; apply lookup_insert_eq).
  assert (Hc2 : cloud (h_env h2) = cloud (h_env h))
    by (unfold h2; rewrite (with_store_run _ h1 _ Hs1); exact Hc1).
  unfold h3. rewrite (with_store_run _ h2 _ Hs2). unfold h_data, fst.
  exists (w_store (fst (update false (MkWorld (h_env h2) st2)))).
  split; [apply lookup_insert_eq|].
  pose proof (update_run false (MkWorld (h_env h2) st2)) as Hup. simpl in Hup.
  destruct Hup as (Hst3 & _). rewrite Hst3. cbn [w_env].
  rewrite Hc2, (entry_value_zone _ s id name v Hid Hname Hz Hd Hv).
  unfold get_data. simpl. by rewrite lookup_insert_eq.
Qed.
End HostClaims.

(** ** Witnesses on a mock cloud *)

Module HostWitnesses.
Import MockCloud SetupWitnesses Witnesses.

Definition h_setup : Hass mock := fst (setup validated hass0).
Definition h_reg : Hass mock := fst (with_store (run_op (OpAddSensor "zone 1" zone1)) h_setup).
Definition h_polled : Hass mock := fst (with_store (run_op (OpUpdate false)) h_reg).

Lemma h_polled_reachable : rtc hass_step (hass_init (h_env hass0)) h_polled.
Proof.
  eapply rtc_l; [apply (HassSetup raw_config validated hass0); vm_compute; reflexivity|].
  eapply rtc_l; [apply (HassPlatform (OpAddSensor "zone 1" zone1)); vm_compute; discriminate|].
  eapply rtc_l; [apply (HassPlatform (OpUpdate false)); vm_compute; discriminate|].
  apply rtc_refl.
Qed.

Lemma reachable_hass_inv_witness : hass_inv h_polled.
Proof. apply (reachable_hass_inv (h_env hass0)). exact h_polled_reachable. Defined.

Lemma setup_register_poll_get_witness :
  exists st, h_data (fst (with_store (update false)
                           (fst (with_store (add_sensor "zone 1" zone1) (fst (setup validated hass0))))))
               !! DATA_TADO = Some st /\ get_data st "zone 1" = PStr "21.5C".
Proof.
  apply (setup_register_poll_get validated hass0
           (PDict [("username", PStr "user"); ("password", PStr "secret")])
           (PStr "user") (PStr "secret") "zone 1" zone1 (PInt 1) (PStr "Living"));
    vm_compute; reflexivity.
Defined.
End HostWitnesses.
